(** * air_traffic_forecast: the helpers of [src/utils.py]

    A shallow embedding of the sequence windower [_split_sequence], of the
    train/validation splitter [train_val_split] and of the index arithmetic
    of [plot_validation], with the properties the specification states
    about them.

    Python integers are [Z]; a sequence (a list, or the first axis of a numpy
    array or of a data frame) is a [list]; [len] is [Z.of_nat (length _)].
    Printing and exceptions are modelled by a writer/exception monad [M]. *)

From Stdlib Require Import ZArith List Lia Bool.
From Stdlib Require String DecimalString.
Import ListNotations String.StringSyntax.
Abbreviation string := String.string.
Local Open Scope string_scope.
Local Open Scope Z_scope.

(** ** The fragment of the Python runtime the helpers use *)

Module Py.

(** Exceptions the helpers can see.  [SystemExit] carries the argument of
    [sys.exit]; it derives from [BaseException], not from [ValueError]. *)
Inductive exn : Type :=
| SystemExit (code : option string)
| ValueError
| IndexError.

Inductive outcome (A : Type) : Type :=
| Ret (a : A)
| Raise (e : exn).
Arguments Ret {A} a.
Arguments Raise {A} e.

(** A computation: the lines printed on stdout, and how it ended. *)
Definition M (A : Type) : Type := (list string * outcome A)%type.

Definition ret {A} (a : A) : M A := ([], Ret a).

Definition bind {A B} (m : M A) (k : A -> M B) : M B :=
  match m with
  | (out, Ret a) => let (out', r) := k a in ((out ++ out')%list, r)
  | (out, Raise e) => (out, Raise e)
  end.

Definition print (line : string) : M unit := ([line], Ret tt).

Definition raise {A} (e : exn) : M A := ([], Raise e).

(** [sys.exit()] and [sys.exit(msg)]. *)
Definition sys_exit {A} (code : option string) : M A := raise (SystemExit code).

Definition is_ValueError (e : exn) : bool :=
  match e with ValueError => true | _ => false end.

(** [try: body except <handles>: handler]. *)
Definition try_except {A} (handles : exn -> bool) (body handler : M A) : M A :=
  match body with
  | (out, Raise e) =>
      if handles e then let (out', r) := handler in ((out ++ out')%list, r)
      else (out, Raise e)
  | done => done
  end.

Definition len {A} (s : list A) : Z := Z.of_nat (length s).

(** A slice bound as [PySlice_AdjustIndices] normalises it (step 1):
    a negative bound counts from the end, and the result is clamped to
    [0 .. len]. *)
Definition adjust (n i : Z) : Z :=
  if i <? 0 then Z.max (i + n) 0 else Z.min i n.

(** [s[start:stop]]; [None] is an omitted bound. *)
Definition slice {A} (s : list A) (start stop : option Z) : list A :=
  let n := len s in
  let lo := match start with Some a => adjust n a | None => 0 end in
  let hi := match stop with Some b => adjust n b | None => n end in
  firstn (Z.to_nat (hi - lo)) (skipn (Z.to_nat lo) s).

(** [s[i]] on a list or on the first axis of an array. *)
Definition index {A} (s : list A) (i : Z) : M A :=
  let n := len s in
  if (i <? - n) || (n <=? i) then raise IndexError
  else match nth_error s (Z.to_nat (if i <? 0 then i + n else i)) with
       | Some a => ret a
       | None => raise IndexError
       end.

(** [np.arange(a, b)] and [range(a, b)] on integers. *)
Definition arange (a b : Z) : list Z :=
  map (fun k => a + Z.of_nat k) (seq 0 (Z.to_nat (b - a))).

(** [str(n)] for a count. *)
Definition str_of_nat (n : nat) : string :=
  DecimalString.NilEmpty.string_of_uint (Nat.to_uint n).

End Py.

Import Py.

Notation "x <- m ;; k" := (bind m (fun x => k))
  (at level 61, m at next level, right associativity).
Notation "m ;;; k" := (bind m (fun _ => k))
  (at level 61, right associativity).

(** ** [_split_sequence] *)

Section Windower.

Context {A : Type}.

(** The guarded block of lines 54-56. *)
Definition length_guard (sequence : list A) (n_input n_output : Z) : M unit :=
  if len sequence <? n_input + n_output then
    print "sequence to short" ;;; sys_exit None
  else ret tt.

(** The handler of line 58. *)
Definition guard_handler : M unit :=
  sys_exit (Some "sequence too short - aborting operation").

(** The loop of lines 61-70.  [todo] is what [enumerate] has still to
    yield and [i] the index it yields next; [inputs] and [outputs] are the
    two lists being appended to. *)
Fixpoint split_loop (sequence : list A) (n_input n_output : Z)
    (todo : list A) (i : Z) (inputs outputs : list (list A))
    : list (list A) * list (list A) :=
  match todo with
  | [] => (inputs, outputs)
  | _ :: todo' =>
      let input_end := i + n_input in
      let output_end := input_end + n_output - 1 in
      if output_end >? len sequence then (inputs, outputs)
      else
        let seq_x := slice sequence (Some i) (Some input_end) in
        let seq_y := slice sequence (Some (input_end - 1)) (Some output_end) in
        split_loop sequence n_input n_output todo' (i + 1)
                   (inputs ++ [seq_x]) (outputs ++ [seq_y])
  end.

(** [_split_sequence(sequence, n_input, n_output)].  [np.array] keeps the
    windows in order; the two arrays are modelled as the two lists of
    windows.  For positive [n_input] and [n_output] all windows of a list
    have the same length (see [split_sequence_windows]), so the conversion
    has a regular shape to build. *)
Definition _split_sequence (sequence : list A) (n_input n_output : Z)
    : M (list (list A) * list (list A)) :=
  try_except is_ValueError (length_guard sequence n_input n_output)
             guard_handler ;;;
  ret (split_loop sequence n_input n_output sequence 0 [] []).

(** *** Vocabulary for the properties of the windower *)

(** The windows the loop cuts at start index [k]. *)
Definition input_at (s : list A) (n_input : Z) (k : nat) : list A :=
  slice s (Some (Z.of_nat k)) (Some (Z.of_nat k + n_input)).

Definition output_at (s : list A) (n_input n_output : Z) (k : nat) : list A :=
  slice s (Some (Z.of_nat k + n_input - 1))
          (Some (Z.of_nat k + n_input + n_output - 1)).

(** How many more windows the loop emits from index [j] on. *)
Definition remaining (s : list A) (n_input n_output : Z) (j : nat) : nat :=
  Z.to_nat (Z.min (len s - Z.of_nat j)
                  (len s - (n_input + n_output - 1) - Z.of_nat j + 1)).

(** [width] consecutive elements of [s] from position [start] on: the
    mathematical reading of [s[start : start+width]]. *)
Definition window (s : list A) (start width : nat) : list A :=
  firstn width (skipn start s).

(** [x] occupies the positions [start .. start + length x - 1] of [s]. *)
Definition lies_inside (x s : list A) (start : nat) : Prop :=
  exists before after, s = before ++ x ++ after /\ length before = start.

Definition window_count (s : list A) (n_input n_output : Z) : nat :=
  Z.to_nat (len s - (n_input + n_output) + 2).

Definition windows_in (s : list A) (n_input n_output : Z) : list (list A) :=
  map (fun k => window s k (Z.to_nat n_input))
      (seq 0 (window_count s n_input n_output)).

Definition windows_out (s : list A) (n_input n_output : Z) : list (list A) :=
  map (fun k => window s (k + Z.to_nat n_input - 1) (Z.to_nat n_output))
      (seq 0 (window_count s n_input n_output)).

End Windower.

(** ** [train_val_split] *)

Section Splitter.

Context {A : Type}.

Definition split_idx (data : list A) (n_steps_in n_steps_out val_samples : Z) : Z :=
  let n_samples := val_samples - 1 in
  len data - (n_steps_in + n_steps_out - 1) - n_samples.

(** Lines 135-138: the two partitions. *)
Definition partitions (data : list A) (n_steps_in n_steps_out val_samples : Z)
    : list A * list A :=
  let idx := split_idx data n_steps_in n_steps_out val_samples in
  (slice data None (Some idx), slice data (Some idx) None).

Definition created_message (n_train n_valid : nat) : string :=
  String.concat String.EmptyString
    ["Created "; str_of_nat n_train; " training samples, ";
     "and "; str_of_nat n_valid; " validation samples."].

Definition train_val_split (data : list A) (n_steps_in n_steps_out val_samples : Z)
    : M (list (list A) * list (list A) * list (list A) * list (list A)) :=
  let (data_train, data_valid) :=
    partitions data n_steps_in n_steps_out val_samples in
  train <- _split_sequence data_train n_steps_in n_steps_out ;;
  valid <- _split_sequence data_valid n_steps_in n_steps_out ;;
  print (created_message (length (fst train)) (length (fst valid))) ;;;
  ret (fst train, snd train, fst valid, snd valid).

End Splitter.

(** ** [plot_validation] *)

Section Plotter.

Context {V : Type}.

(** One sample of a batch: a two-dimensional array, time steps by
    features.  [len] counts its rows and [flatten] concatenates them.  A
    one-dimensional forecast row is the array of its single row. *)
Definition sample : Type := list (list V).

Definition flatten (a : sample) : list V := concat a.

(** A data frame indexed by its "date" column, with one value column. *)
Record frame : Type := Frame { dates : list Z; column : list V }.

(** [pd.DataFrame({"date": d, <name>: c}).set_index("date")]: pandas refuses
    columns of different lengths with a [ValueError]. *)
Definition data_frame (d : list Z) (c : list V) : M frame :=
  if Nat.eqb (length d) (length c) then ret (Frame d c) else raise ValueError.

(** What the axes hold when they are returned: the labelled lines, in the
    order they were plotted. *)
Definition axes : Type := list (string * frame).

(** The model collaborator: [model.predict(val_set, verbose=0)]. *)
Variable predict : list sample -> list sample.

Definition plot_validation (val_set y_test : list sample) (i : Z) : M axes :=
  (if i >? len y_test then raise IndexError else ret tt) ;;;
  let forecasts := predict val_set in
  row <- index forecasts i ;;
  let x_pred := flatten row in
  window <- index val_set i ;;
  let x_pred_len := len window in
  model_output <-
    data_frame (map (fun d => d - 1) (arange x_pred_len (x_pred_len + len x_pred)))
               x_pred ;;
  window' <- index val_set i ;;
  model_input <- data_frame (arange 0 x_pred_len) (flatten window') ;;
  target <- index y_test i ;;
  expected <-
    data_frame (map (fun d => d - 1) (arange x_pred_len (x_pred_len + len x_pred)))
               (flatten target) ;;
  ret [("predicted", model_output); ("input", model_input); ("expected", expected)].

End Plotter.

(** Closes a goal about concrete lists and numbers. *)
Ltac by_evaluation := first [reflexivity | unfold len; cbn; lia].

(** * Properties *)

(** ** The runtime model on small inputs *)

Example slice_negative_stop : slice [1; 2; 3; 4] None (Some (-2)) = [1; 2].
Proof. reflexivity. Qed.

Example slice_negative_start : slice [1; 2; 3; 4] (Some (-2)) None = [3; 4].
Proof. reflexivity. Qed.

Example slice_clamped : slice [1; 2; 3; 4] (Some 2) (Some 9) = [3; 4].
Proof. reflexivity. Qed.

Example index_from_the_end : index [10; 20; 30] (-1) = ret 30.
Proof. reflexivity. Qed.

Example index_past_the_end : index [10; 20; 30] 3 = raise IndexError.
Proof. reflexivity. Qed.

Example arange_minus_one : map (fun d => d - 1) (arange 3 5) = [2; 3].
Proof. reflexivity. Qed.

Example docstring_example :
  _split_sequence [1; 2; 3; 4; 5] 3 2
  = ([], Ret ([[1; 2; 3]; [2; 3; 4]], [[3; 4]; [4; 5]])).
Proof. reflexivity. Qed.

Example too_short_example :
  _split_sequence [1; 2; 3; 4] 3 2
  = (["sequence to short"], Raise (SystemExit None)).
Proof. reflexivity. Qed.

Example train_val_split_example :
  train_val_split [1; 2; 3; 4; 5; 6; 7; 8] 2 2 2
  = (["Created 2 training samples, and 2 validation samples."],
     Ret ([[1; 2]; [2; 3]], [[2; 3]; [3; 4]],
          [[5; 6]; [6; 7]], [[6; 7]; [7; 8]])).
Proof. reflexivity. Qed.

(** ** Facts about slices *)

Section SliceFacts.

Context {A : Type}.
Implicit Types s : list A.

Lemma adjust_range n i : 0 <= n -> 0 <= adjust n i <= n.
Proof. unfold adjust. destruct (i <? 0) eqn:E; lia. Qed.

Lemma adjust_inside n i : 0 <= i <= n -> adjust n i = i.
Proof. unfold adjust. destruct (Z.ltb_spec i 0); lia. Qed.

Lemma len_nonneg s : 0 <= len s.
Proof. unfold len. lia. Qed.

Lemma slice_inside s a b :
  0 <= a -> a <= b -> b <= len s ->
  slice s (Some a) (Some b) = firstn (Z.to_nat (b - a)) (skipn (Z.to_nat a) s).
Proof.
  intros Ha Hab Hb. unfold slice.
  rewrite !adjust_inside by lia. reflexivity.
Qed.

Lemma length_window s (start width : nat) :
  (start + width <= length s)%nat ->
  length (firstn width (skipn start s)) = width.
Proof. intros H. rewrite length_firstn, length_skipn. lia. Qed.

(** The two halves of a split at one index put the sequence back. *)
Lemma slice_prefix s i :
  slice s None (Some i) = firstn (Z.to_nat (adjust (len s) i)) s.
Proof.
  unfold slice. cbn [skipn Z.to_nat]. now rewrite Z.sub_0_r.
Qed.

Lemma slice_suffix s i :
  slice s (Some i) None = skipn (Z.to_nat (adjust (len s) i)) s.
Proof.
  unfold slice. apply firstn_all2. rewrite length_skipn. unfold len. lia.
Qed.

Lemma len_slice_suffix s i :
  len (slice s (Some i) None) = len s - adjust (len s) i.
Proof.
  rewrite slice_suffix. unfold len at 1. rewrite length_skipn.
  pose proof (adjust_range (len s) i (len_nonneg s)). unfold len in *. lia.
Qed.

Lemma len_slice_prefix s i :
  len (slice s None (Some i)) = adjust (len s) i.
Proof.
  rewrite slice_prefix. unfold len at 1. rewrite length_firstn.
  pose proof (adjust_range (len s) i (len_nonneg s)). unfold len in *. lia.
Qed.

End SliceFacts.

(** ** The loop of [_split_sequence] in closed form *)

Section LoopFacts.

Context {A : Type}.
Implicit Types s todo : list A.

Lemma split_loop_closed s n_input n_output todo :
  forall (j : nat) inputs outputs,
    (j + length todo = length s)%nat ->
    split_loop s n_input n_output todo (Z.of_nat j) inputs outputs
    = (inputs ++ map (input_at s n_input)
                     (seq j (remaining s n_input n_output j)),
       outputs ++ map (output_at s n_input n_output)
                      (seq j (remaining s n_input n_output j))).
Proof.
  induction todo as [|x todo IH]; intros j inputs outputs Hlen; cbn [split_loop].
  - assert (remaining s n_input n_output j = 0%nat) as ->.
    { unfold remaining, len. cbn [length] in Hlen. lia. }
    cbn. now rewrite !app_nil_r.
  - cbn [length] in Hlen.
    destruct (Z.gtb_spec (Z.of_nat j + n_input + n_output - 1) (len s)) as [Hgt|Hle].
    + assert (remaining s n_input n_output j = 0%nat) as ->.
      { unfold remaining. lia. }
      cbn. now rewrite !app_nil_r.
    + replace (Z.of_nat j + 1) with (Z.of_nat (S j)) by lia.
      rewrite IH by lia.
      assert (remaining s n_input n_output j
              = S (remaining s n_input n_output (S j))) as ->.
      { unfold remaining, len in *. lia. }
      cbn [seq map]. rewrite <- !app_assoc. reflexivity.
Qed.

End LoopFacts.

(** ** The windower on a long enough sequence *)

Section WindowerFacts.

Context {A : Type}.
Implicit Types s : list A.

Lemma nth_error_map_seq {B} (f : nat -> B) (n k : nat) :
  nth_error (map f (seq 0 n)) k = if (k <? n)%nat then Some (f k) else None.
Proof.
  destruct (Nat.ltb_spec k n) as [Hlt|Hge].
  - rewrite (nth_error_map f). rewrite nth_error_seq.
    destruct (Nat.ltb_spec k n); [reflexivity | lia].
  - apply nth_error_None. rewrite length_map, length_seq. lia.
Qed.

Lemma length_guard_pass s n_input n_output :
  n_input + n_output <= len s ->
  length_guard s n_input n_output = ret tt.
Proof.
  intros H. unfold length_guard.
  destruct (Z.ltb_spec (len s) (n_input + n_output)); [lia | reflexivity].
Qed.

Lemma length_guard_exit s n_input n_output :
  len s < n_input + n_output ->
  length_guard s n_input n_output
  = (["sequence to short"], Raise (SystemExit None)).
Proof.
  intros H. unfold length_guard.
  destruct (Z.ltb_spec (len s) (n_input + n_output)); [reflexivity | lia].
Qed.

Lemma split_sequence_exit s n_input n_output :
  len s < n_input + n_output ->
  _split_sequence s n_input n_output
  = (["sequence to short"], Raise (SystemExit None)).
Proof.
  intros H. unfold _split_sequence. now rewrite length_guard_exit.
Qed.

Lemma split_sequence_loop s n_input n_output :
  n_input + n_output <= len s ->
  _split_sequence s n_input n_output
  = ([], Ret (split_loop s n_input n_output s 0 [] [])).
Proof.
  intros H. unfold _split_sequence. now rewrite length_guard_pass.
Qed.

Lemma input_at_window s n_input n_output (k : nat) :
  1 <= n_input -> 1 <= n_output ->
  Z.of_nat k + n_input + n_output - 1 <= len s ->
  input_at s n_input k = window s k (Z.to_nat n_input).
Proof.
  intros Hi Ho Hk. unfold input_at, window.
  rewrite slice_inside by lia.
  f_equal; [f_equal; lia | now rewrite Nat2Z.id].
Qed.

Lemma output_at_window s n_input n_output (k : nat) :
  1 <= n_input -> 1 <= n_output ->
  Z.of_nat k + n_input + n_output - 1 <= len s ->
  output_at s n_input n_output k
  = window s (k + Z.to_nat n_input - 1) (Z.to_nat n_output).
Proof.
  intros Hi Ho Hk. unfold output_at, window.
  rewrite slice_inside by lia.
  f_equal; [f_equal; lia | f_equal; lia].
Qed.

Lemma remaining_all s n_input n_output :
  1 <= n_input -> 1 <= n_output ->
  remaining s n_input n_output 0 = window_count s n_input n_output.
Proof. intros Hi Ho. unfold remaining, window_count. lia. Qed.

Lemma window_count_spec s n_input n_output (k : nat) :
  (k < window_count s n_input n_output)%nat
  <-> Z.of_nat k + n_input + n_output - 1 <= len s.
Proof. unfold window_count. lia. Qed.

(** On a sequence that passes the guard the result is the list of all
    windows that fit, by ascending start index. *)
Lemma split_sequence_closed s n_input n_output :
  1 <= n_input -> 1 <= n_output -> n_input + n_output <= len s ->
  _split_sequence s n_input n_output
  = ([], Ret (windows_in s n_input n_output, windows_out s n_input n_output)).
Proof.
  intros Hi Ho Hlen. rewrite split_sequence_loop by assumption.
  change 0 with (Z.of_nat 0).
  rewrite split_loop_closed by reflexivity.
  rewrite remaining_all by assumption. cbn [app].
  unfold windows_in, windows_out. do 3 f_equal.
  - apply map_ext_in. intros k Hk. apply in_seq in Hk.
    apply input_at_window with (n_output := n_output); try assumption.
    apply window_count_spec. lia.
  - apply map_ext_in. intros k Hk. apply in_seq in Hk.
    apply output_at_window; try assumption.
    apply window_count_spec. lia.
Qed.

Lemma window_lies_inside s (start width : nat) :
  (start <= length s)%nat ->
  lies_inside (window s start width) s start.
Proof.
  intros Hle. unfold lies_inside, window.
  exists (firstn start s), (skipn width (skipn start s)). split.
  - now rewrite firstn_skipn, firstn_skipn.
  - rewrite length_firstn. lia.
Qed.

Lemma nth_error_window s (start width j : nat) :
  (j < width)%nat ->
  nth_error (window s start width) j = nth_error s (start + j).
Proof.
  intros Hj. unfold window.
  rewrite nth_error_firstn.
  destruct (Nat.ltb_spec j width); [| lia].
  apply nth_error_skipn.
Qed.

(** C1: on a sequence with [len s >= n_input + n_output], for positive
    [n_input] and [n_output], [_split_sequence] returns the windows by
    ascending start index: the k-th input is [s[k : k+n_input]], of length
    [n_input], the k-th output is [s[k+n_input-1 : k+n_input+n_output-1]],
    of length [n_output], and there is a k-th window exactly when
    [k + n_input + n_output - 1 <= len s]. *)
Theorem split_sequence_windows s n_input n_output :
  1 <= n_input -> 1 <= n_output -> n_input + n_output <= len s ->
  exists inputs outputs,
    _split_sequence s n_input n_output = ([], Ret (inputs, outputs))
    /\ inputs = map (fun k => window s k (Z.to_nat n_input))
                    (seq 0 (Z.to_nat (len s - (n_input + n_output) + 2)))
    /\ outputs = map (fun k => window s (k + Z.to_nat n_input - 1)
                                       (Z.to_nat n_output))
                     (seq 0 (Z.to_nat (len s - (n_input + n_output) + 2)))
    /\ (forall k : nat,
          Z.of_nat k + n_input + n_output - 1 <= len s ->
          nth_error inputs k = Some (window s k (Z.to_nat n_input))
          /\ len (window s k (Z.to_nat n_input)) = n_input
          /\ nth_error outputs k
             = Some (window s (k + Z.to_nat n_input - 1) (Z.to_nat n_output))
          /\ len (window s (k + Z.to_nat n_input - 1) (Z.to_nat n_output))
             = n_output)
    /\ (forall k : nat,
          len s < Z.of_nat k + n_input + n_output - 1 ->
          nth_error inputs k = None /\ nth_error outputs k = None).
Proof.
  intros Hi Ho Hlen.
  exists (windows_in s n_input n_output), (windows_out s n_input n_output).
  split; [now apply split_sequence_closed |].
  split; [reflexivity |]. split; [reflexivity |]. split.
  - intros k Hk. unfold windows_in, windows_out.
    rewrite !nth_error_map_seq.
    destruct (Nat.ltb_spec k (window_count s n_input n_output)) as [_|Hge];
      [| apply window_count_spec in Hk; lia].
    unfold len in *. unfold window.
    rewrite !length_window by lia.
    repeat split; lia.
  - intros k Hk. unfold windows_in, windows_out.
    rewrite !nth_error_map_seq.
    destruct (Nat.ltb_spec k (window_count s n_input n_output)) as [Hlt|_];
      [apply window_count_spec in Hlt; lia | now split].
Qed.

End WindowerFacts.

(** The example of the docstring: [[1,2,3,4,5]] for [(seq, 3, 2)]. *)
Lemma split_sequence_windows_witness :
  1 <= 3 /\ 1 <= 2 /\ 3 + 2 <= len [1; 2; 3; 4; 5]
  /\ _split_sequence [1; 2; 3; 4; 5] 3 2
     = ([], Ret ([[1; 2; 3]; [2; 3; 4]], [[3; 4]; [4; 5]])).
Proof.
  assert (H : 3 + 2 <= len [1; 2; 3; 4; 5]) by (vm_compute; discriminate).
  split; [lia |]. split; [lia |]. split; [exact H |].
  destruct (split_sequence_windows [1; 2; 3; 4; 5] 3 2)
    as (inputs & outputs & Hrun & Hin & Hout & _); [lia | lia | exact H |].
  rewrite Hrun, Hin, Hout. reflexivity.
Defined.

(** ** Shape of the windows *)

Section WindowShape.

Context {A : Type}.
Implicit Types s : list A.

(** C4: on a sequence with [len s >= n_input + n_output] (and positive
    window lengths) [_split_sequence] returns as many inputs as outputs,
    every window is a full-length run of consecutive elements of [s], and
    the last element of [inputs[k]] is the first element of [outputs[k]]. *)
Theorem split_sequence_overlap s n_input n_output :
  1 <= n_input -> 1 <= n_output -> n_input + n_output <= len s ->
  exists inputs outputs,
    _split_sequence s n_input n_output = ([], Ret (inputs, outputs))
    /\ length inputs = length outputs
    /\ forall (k : nat) x y,
         nth_error inputs k = Some x -> nth_error outputs k = Some y ->
         lies_inside x s k /\ len x = n_input
         /\ lies_inside y s (k + Z.to_nat n_input - 1) /\ len y = n_output
         /\ exists v, nth_error x (length x - 1) = Some v
                      /\ nth_error y 0 = Some v.
Proof.
  intros Hi Ho Hlen.
  exists (windows_in s n_input n_output), (windows_out s n_input n_output).
  split; [now apply split_sequence_closed |].
  split; [unfold windows_in, windows_out; now rewrite !length_map |].
  intros k x y. unfold windows_in, windows_out.
  rewrite !nth_error_map_seq.
  destruct (Nat.ltb_spec k (window_count s n_input n_output)) as [Hk|_];
    [| discriminate].
  apply window_count_spec in Hk.
  intros [= <-] [= <-]. unfold len in *.
  assert (Hx : length (window s k (Z.to_nat n_input)) = Z.to_nat n_input)
    by (apply length_window; lia).
  assert (Hy : length (window s (k + Z.to_nat n_input - 1) (Z.to_nat n_output))
               = Z.to_nat n_output)
    by (apply length_window; lia).
  split; [apply window_lies_inside; lia |].
  split; [lia |].
  split; [apply window_lies_inside; lia |].
  split; [lia |].
  rewrite Hx, !nth_error_window by lia.
  destruct (nth_error s (k + (Z.to_nat n_input - 1))) as [v|] eqn:Hv.
  - exists v. split; [reflexivity |].
    rewrite <- Hv. f_equal. lia.
  - apply nth_error_None in Hv. lia.
Qed.

(** C5, as the code has it: a sequence of length exactly
    [n_input + n_output] yields two windows, at start indices 0 and 1. *)
Theorem split_sequence_exact_length s n_input n_output :
  1 <= n_input -> 1 <= n_output -> len s = n_input + n_output ->
  _split_sequence s n_input n_output
  = ([], Ret ([window s 0 (Z.to_nat n_input); window s 1 (Z.to_nat n_input)],
              [window s (Z.to_nat n_input - 1) (Z.to_nat n_output);
               window s (Z.to_nat n_input) (Z.to_nat n_output)])).
Proof.
  intros Hi Ho Hlen. rewrite split_sequence_closed by lia.
  unfold windows_in, windows_out.
  assert (window_count s n_input n_output = 2%nat) as ->
    by (unfold window_count; lia).
  cbn [seq map Nat.add].
  replace (S (Z.to_nat n_input) - 1)%nat with (Z.to_nat n_input) by lia.
  reflexivity.
Qed.

(** C6: a sequence shorter than [n_input + n_output] makes
    [_split_sequence] print its message and raise [SystemExit]: it returns
    nothing, and whatever the caller would do next is not run. *)
Theorem split_sequence_too_short s n_input n_output :
  len s < n_input + n_output ->
  _split_sequence s n_input n_output
  = (["sequence to short"], Raise (SystemExit None))
  /\ (forall out r, _split_sequence s n_input n_output <> (out, Ret r))
  /\ (forall (B : Type) (rest : list (list A) * list (list A) -> M B),
        bind (_split_sequence s n_input n_output) rest
        = (["sequence to short"], Raise (SystemExit None))).
Proof.
  intros H. rewrite split_sequence_exit by assumption.
  split; [reflexivity |]. split; [discriminate | reflexivity].
Qed.

(** C9: the [except ValueError] handler around the length guard is dead:
    the guarded block either falls through or raises [SystemExit], which
    the handler does not match, so the [try] statement behaves the same
    with any handler and the handler's message never is the exit code. *)
Theorem guard_handler_unreachable s n_input n_output :
  (length_guard s n_input n_output = ret tt
   \/ length_guard s n_input n_output
      = (["sequence to short"], Raise (SystemExit None)))
  /\ (forall handler : M unit,
        try_except is_ValueError (length_guard s n_input n_output) handler
        = length_guard s n_input n_output)
  /\ (forall out,
        _split_sequence s n_input n_output
        <> (out, Raise (SystemExit
                          (Some "sequence too short - aborting operation")))).
Proof.
  destruct (Z.lt_ge_cases (len s) (n_input + n_output)) as [Hlt|Hge].
  - rewrite split_sequence_exit, length_guard_exit by assumption.
    split; [now right |]. split; [reflexivity | discriminate].
  - rewrite split_sequence_loop, length_guard_pass by assumption.
    split; [now left |]. split; [reflexivity | discriminate].
Qed.

End WindowShape.

Lemma split_sequence_overlap_witness :
  1 <= 3 /\ 1 <= 2 /\ 3 + 2 <= len [1; 2; 3; 4; 5]
  /\ exists inputs outputs,
       _split_sequence [1; 2; 3; 4; 5] 3 2 = ([], Ret (inputs, outputs))
       /\ length inputs = length outputs.
Proof.
  assert (H : 3 + 2 <= len [1; 2; 3; 4; 5]) by (vm_compute; discriminate).
  split; [lia |]. split; [lia |]. split; [exact H |].
  destruct (split_sequence_overlap [1; 2; 3; 4; 5] 3 2)
    as (inputs & outputs & Hrun & Hsame & _); [lia | lia | exact H |].
  exists inputs, outputs. now split.
Defined.

Lemma split_sequence_exact_length_witness :
  1 <= 3 /\ 1 <= 2 /\ len [1; 2; 3; 4; 5] = 3 + 2
  /\ _split_sequence [1; 2; 3; 4; 5] 3 2
     = ([], Ret ([[1; 2; 3]; [2; 3; 4]], [[3; 4]; [4; 5]])).
Proof.
  split; [lia |]. split; [lia |]. split; [reflexivity |].
  apply (split_sequence_exact_length [1; 2; 3; 4; 5] 3 2); [lia | lia | reflexivity].
Defined.

(** C5 as stated fails on the docstring's own example: length 5 = 3 + 2,
    two windows. *)
Lemma exact_length_not_one_window :
  len [1; 2; 3; 4; 5] = 3 + 2
  /\ ~ (exists out inputs outputs,
          _split_sequence [1; 2; 3; 4; 5] 3 2 = (out, Ret (inputs, outputs))
          /\ length inputs = 1%nat).
Proof.
  split; [reflexivity |].
  intros (out & inputs & outputs & Hrun & Hone).
  vm_compute in Hrun. injection Hrun as _ <- _. discriminate Hone.
Qed.

Lemma split_sequence_too_short_witness :
  len [1; 2; 3] < 3 + 2
  /\ _split_sequence [1; 2; 3] 3 2
     = (["sequence to short"], Raise (SystemExit None)).
Proof.
  assert (H : len [1; 2; 3] < 3 + 2) by (vm_compute; reflexivity).
  split; [exact H |].
  exact (proj1 (split_sequence_too_short [1; 2; 3] 3 2 H)).
Defined.

(** ** The train/validation split *)

Section SplitterFacts.

Context {A : Type}.
Implicit Types data s : list A.

Lemma train_val_split_unfold data n_in n_out val_samples :
  train_val_split data n_in n_out val_samples
  = (train <- _split_sequence (fst (partitions data n_in n_out val_samples))
                              n_in n_out ;;
     valid <- _split_sequence (snd (partitions data n_in n_out val_samples))
                              n_in n_out ;;
     print (created_message (length (fst train)) (length (fst valid))) ;;;
     ret (fst train, snd train, fst valid, snd valid)).
Proof.
  unfold train_val_split.
  now destruct (partitions data n_in n_out val_samples).
Qed.

Lemma len_validation data n_in n_out val_samples :
  len (snd (partitions data n_in n_out val_samples))
  = len data - adjust (len data) (split_idx data n_in n_out val_samples).
Proof. unfold partitions. cbn [snd]. apply len_slice_suffix. Qed.

Lemma len_train data n_in n_out val_samples :
  len (fst (partitions data n_in n_out val_samples))
  = adjust (len data) (split_idx data n_in n_out val_samples).
Proof. unfold partitions. cbn [fst]. apply len_slice_prefix. Qed.

(** C2: [train_val_split] cuts the series at the index
    [len(series) - (n_input + n_output - 1) - (val_samples - 1)], read as
    Python reads a slice bound: the train partition is what precedes it,
    the validation partition the suffix from it on, the two put the series
    back and their lengths add up to its length. *)
Theorem partitions_split data n_in n_out val_samples :
  let idx := len data - (n_in + n_out - 1) - (val_samples - 1) in
  let cut := Z.to_nat (adjust (len data) idx) in
  partitions data n_in n_out val_samples = (firstn cut data, skipn cut data)
  /\ fst (partitions data n_in n_out val_samples)
     ++ snd (partitions data n_in n_out val_samples) = data
  /\ len (fst (partitions data n_in n_out val_samples))
     + len (snd (partitions data n_in n_out val_samples)) = len data
  /\ (0 <= idx <= len data ->
      cut = Z.to_nat idx
      /\ len (fst (partitions data n_in n_out val_samples)) = idx).
Proof.
  intros idx cut.
  assert (Hp : partitions data n_in n_out val_samples
               = (firstn cut data, skipn cut data)).
  { unfold partitions, split_idx. cbn zeta.
    now rewrite slice_prefix, slice_suffix. }
  split; [exact Hp |]. split; [| split].
  - rewrite Hp. cbn [fst snd]. apply firstn_skipn.
  - rewrite len_train, len_validation. lia.
  - intros Hin. rewrite len_train. unfold split_idx. cbn zeta.
    fold idx. subst cut. rewrite adjust_inside by lia. split; reflexivity.
Qed.

(** C3, as the code has it: when the split index is not negative and the
    validation partition passes the windower's length guard, windowing it
    gives exactly [val_samples] windows; and when the train partition
    passes the guard too, these are the validation windows that
    [train_val_split] returns. *)
Theorem validation_window_count data n_in n_out val_samples :
  1 <= n_in -> 1 <= n_out ->
  0 <= split_idx data n_in n_out val_samples ->
  n_in + n_out <= len (snd (partitions data n_in n_out val_samples)) ->
  (exists x_valid y_valid,
     _split_sequence (snd (partitions data n_in n_out val_samples)) n_in n_out
     = ([], Ret (x_valid, y_valid))
     /\ len x_valid = val_samples /\ len y_valid = val_samples)
  /\ (n_in + n_out <= len (fst (partitions data n_in n_out val_samples)) ->
      exists x_train y_train x_valid y_valid,
        train_val_split data n_in n_out val_samples
        = ([created_message (length x_train) (length x_valid)],
           Ret (x_train, y_train, x_valid, y_valid))
        /\ len x_valid = val_samples /\ len y_valid = val_samples).
Proof.
  intros Hi Ho Hidx Hvalid.
  set (valid := snd (partitions data n_in n_out val_samples)) in *.
  set (train := fst (partitions data n_in n_out val_samples)).
  assert (Hcount : window_count valid n_in n_out = Z.to_nat val_samples
                   /\ 0 <= val_samples).
  { unfold window_count. subst valid. rewrite len_validation in *.
    unfold split_idx, adjust in *.
    destruct (Z.ltb_spec (len data - (n_in + n_out - 1) - (val_samples - 1)) 0);
      lia. }
  destruct Hcount as [Hcount Hpos].
  assert (Hx : len (windows_in valid n_in n_out) = val_samples).
  { unfold len, windows_in. rewrite length_map, length_seq, Hcount. lia. }
  assert (Hy : len (windows_out valid n_in n_out) = val_samples).
  { unfold len, windows_out. rewrite length_map, length_seq, Hcount. lia. }
  split.
  - exists (windows_in valid n_in n_out), (windows_out valid n_in n_out).
    split; [now apply split_sequence_closed | now split].
  - intros Htrain.
    exists (windows_in train n_in n_out), (windows_out train n_in n_out),
           (windows_in valid n_in n_out), (windows_out valid n_in n_out).
    split; [| now split].
    rewrite train_val_split_unfold. fold train. fold valid.
    rewrite !split_sequence_closed by assumption. reflexivity.
Qed.

(** C10: a sequence of length [n_input + n_output - 1] is stopped by the
    length guard although the loop, run on it, cuts exactly one window of
    full length; and with [val_samples = 1] the validation partition is at
    most that long, so [train_val_split] exits on every series. *)
Theorem single_window_length_aborts s n_in n_out :
  1 <= n_in -> 1 <= n_out -> len s = n_in + n_out - 1 ->
  _split_sequence s n_in n_out
  = (["sequence to short"], Raise (SystemExit None))
  /\ split_loop s n_in n_out s 0 [] []
     = ([window s 0 (Z.to_nat n_in)],
        [window s (Z.to_nat n_in - 1) (Z.to_nat n_out)])
  /\ len (window s 0 (Z.to_nat n_in)) = n_in
  /\ len (window s (Z.to_nat n_in - 1) (Z.to_nat n_out)) = n_out
  /\ (forall data,
        train_val_split data n_in n_out 1
        = (["sequence to short"], Raise (SystemExit None))).
Proof.
  intros Hi Ho Hlen.
  split; [apply split_sequence_exit; lia |]. split; [| split; [| split]].
  - change 0 with (Z.of_nat 0). rewrite split_loop_closed by reflexivity.
    assert (remaining s n_in n_out 0 = 1%nat) as ->
      by (unfold remaining; lia).
    cbn [seq map app].
    rewrite (input_at_window s n_in n_out), (output_at_window s n_in n_out)
      by (cbn; lia).
    reflexivity.
  - unfold len in *. unfold window. rewrite length_window; lia.
  - unfold len in *. unfold window. rewrite length_window; lia.
  - intros data. rewrite train_val_split_unfold.
    assert (Hv : len (snd (partitions data n_in n_out 1)) < n_in + n_out).
    { rewrite len_validation. unfold split_idx, adjust.
      destruct (Z.ltb_spec (len data - (n_in + n_out - 1) - (1 - 1)) 0);
        pose proof (len_nonneg data); lia. }
    destruct (Z.lt_ge_cases (len (fst (partitions data n_in n_out 1)))
                            (n_in + n_out)) as [Ht|Ht].
    + now rewrite (split_sequence_exit _ _ _ Ht).
    + rewrite (split_sequence_loop _ _ _ Ht), (split_sequence_exit _ _ _ Hv).
      reflexivity.
Qed.

End SplitterFacts.

Lemma partitions_split_witness :
  0 <= len [10; 20; 30; 40; 50; 60; 70] - (3 + 2 - 1) - (2 - 1)
    <= len [10; 20; 30; 40; 50; 60; 70]
  /\ partitions [10; 20; 30; 40; 50; 60; 70] 3 2 2
     = ([10; 20], [30; 40; 50; 60; 70])
  /\ len (fst (partitions [10; 20; 30; 40; 50; 60; 70] 3 2 2)) = 2.
Proof.
  assert (H : 0 <= len [10; 20; 30; 40; 50; 60; 70] - (3 + 2 - 1) - (2 - 1)
              <= len [10; 20; 30; 40; 50; 60; 70])
    by (vm_compute; split; discriminate).
  split; [exact H |].
  destruct (partitions_split [10; 20; 30; 40; 50; 60; 70] 3 2 2)
    as (Hp & _ & _ & Hin).
  split; [rewrite Hp; reflexivity | exact (proj2 (Hin H))].
Defined.

Lemma validation_window_count_witness :
  1 <= 3 /\ 1 <= 2
  /\ 0 <= split_idx [10; 20; 30; 40; 50; 60; 70] 3 2 2
  /\ 3 + 2 <= len (snd (partitions [10; 20; 30; 40; 50; 60; 70] 3 2 2))
  /\ exists x_valid y_valid,
       _split_sequence (snd (partitions [10; 20; 30; 40; 50; 60; 70] 3 2 2)) 3 2
       = ([], Ret (x_valid, y_valid))
       /\ len x_valid = 2 /\ len y_valid = 2.
Proof.
  assert (H1 : 0 <= split_idx [10; 20; 30; 40; 50; 60; 70] 3 2 2)
    by (vm_compute; discriminate).
  assert (H2 : 3 + 2 <= len (snd (partitions [10; 20; 30; 40; 50; 60; 70] 3 2 2)))
    by (vm_compute; discriminate).
  split; [lia |]. split; [lia |]. split; [exact H1 |]. split; [exact H2 |].
  apply (validation_window_count [10; 20; 30; 40; 50; 60; 70] 3 2 2);
    [lia | lia | exact H1 | exact H2].
Defined.

(** C3 as stated fails when the split index is negative: with four points,
    windows of 1 + 1 and six validation samples asked for, the index is
    -2, the slice bounds wrap around, both partitions pass the guard and
    the call returns two validation windows. *)
Lemma validation_count_wraparound :
  split_idx [1; 2; 3; 4] 1 1 6 = -2
  /\ partitions [1; 2; 3; 4] 1 1 6 = ([1; 2], [3; 4])
  /\ 1 + 1 <= len (snd (partitions [1; 2; 3; 4] 1 1 6))
  /\ train_val_split [1; 2; 3; 4] 1 1 6
     = (["Created 2 training samples, and 2 validation samples."],
        Ret ([[1]; [2]], [[1]; [2]], [[3]; [4]], [[3]; [4]]))
  /\ ~ (exists out x_valid y_valid,
          _split_sequence (snd (partitions [1; 2; 3; 4] 1 1 6)) 1 1
          = (out, Ret (x_valid, y_valid))
          /\ len x_valid = 6).
Proof.
  split; [reflexivity |]. split; [reflexivity |].
  split; [vm_compute; discriminate |]. split; [reflexivity |].
  intros (out & x & y & Hrun & Hsix).
  vm_compute in Hrun. injection Hrun as _ <- _. discriminate Hsix.
Qed.

Lemma single_window_length_aborts_witness :
  1 <= 3 /\ 1 <= 2 /\ len [1; 2; 3; 4] = 3 + 2 - 1
  /\ _split_sequence [1; 2; 3; 4] 3 2
     = (["sequence to short"], Raise (SystemExit None))
  /\ split_loop [1; 2; 3; 4] 3 2 [1; 2; 3; 4] 0 [] [] = ([[1; 2; 3]], [[3; 4]])
  /\ train_val_split [1; 2; 3; 4; 5; 6; 7; 8; 9] 3 2 1
     = (["sequence to short"], Raise (SystemExit None)).
Proof.
  split; [lia |]. split; [lia |]. split; [reflexivity |].
  destruct (single_window_length_aborts [1; 2; 3; 4] 3 2)
    as (Hexit & Hloop & _ & _ & Hsplit); [lia | lia | reflexivity |].
  split; [exact Hexit |]. split; [rewrite Hloop; reflexivity |].
  apply (Hsplit [1; 2; 3; 4; 5; 6; 7; 8; 9]).
Defined.

(** ** The validation plot *)

Section PlotterFacts.

Context {V : Type}.
Variable predict : list (@sample V) -> list (@sample V).

Lemma bind_ret_l {B C} (b : B) (k : B -> M C) : bind (ret b) k = k b.
Proof. unfold bind, ret. now destruct (k b). Qed.

Lemma bind_ext {B C} (m : M B) (k k' : B -> M C) :
  (forall b, k b = k' b) -> bind m k = bind m k'.
Proof. intros H. destruct m as [out [b|e]]; cbn; now rewrite ?H. Qed.

Lemma index_outside {B} (s : list B) i :
  i < - len s \/ len s <= i -> index s i = raise IndexError.
Proof.
  intros H. unfold index.
  destruct (Z.ltb_spec i (- len s)); [reflexivity |].
  destruct (Z.leb_spec (len s) i); [reflexivity | lia].
Qed.

Lemma index_inside {B} (s : list B) i :
  - len s <= i < len s ->
  exists a, index s i = ret a
            /\ nth_error s (Z.to_nat (if i <? 0 then i + len s else i)) = Some a.
Proof.
  intros H. unfold index.
  destruct (Z.ltb_spec i (- len s)); [lia |].
  destruct (Z.leb_spec (len s) i); [lia |]. cbn [orb].
  destruct (nth_error s (Z.to_nat (if i <? 0 then i + len s else i)))
    as [a|] eqn:Ha.
  - now exists a.
  - apply nth_error_None in Ha. unfold len in *.
    destruct (Z.ltb_spec i 0); lia.
Qed.

Lemma length_arange a b : length (arange a b) = Z.to_nat (b - a).
Proof. unfold arange. now rewrite length_map, length_seq. Qed.

Lemma arange_shift a b :
  map (fun d => d - 1) (arange a b) = arange (a - 1) (b - 1).
Proof.
  unfold arange. rewrite map_map.
  replace (b - 1 - (a - 1)) with (b - a) by lia.
  apply map_ext. intros k. lia.
Qed.

Lemma nth_error_arange a b (k : nat) :
  nth_error (arange a b) k
  = if (k <? Z.to_nat (b - a))%nat then Some (a + Z.of_nat k) else None.
Proof. unfold arange. apply (nth_error_map_seq (fun k => a + Z.of_nat k)). Qed.

Lemma data_frame_cases (d : list Z) (c : list V) :
  (length d = length c /\ data_frame d c = ret (Frame d c))
  \/ (length d <> length c /\ data_frame d c = raise ValueError).
Proof.
  unfold data_frame. destruct (Nat.eqb_spec (length d) (length c)); auto.
Qed.

(** The run of [plot_validation] once the three index operations are
    known to succeed. *)
Lemma plot_validation_run val_set y_test i row window target :
  i <= len y_test ->
  index (predict val_set) i = ret row ->
  index val_set i = ret window ->
  index y_test i = ret target ->
  plot_validation predict val_set y_test i
  = (model_output <-
       data_frame (arange (len window - 1)
                          (len window - 1 + len (flatten row)))
                  (flatten row) ;;
     model_input <- data_frame (arange 0 (len window)) (flatten window) ;;
     expected <-
       data_frame (arange (len window - 1)
                          (len window - 1 + len (flatten row)))
                  (flatten target) ;;
     ret [("predicted", model_output); ("input", model_input);
          ("expected", expected)]).
Proof.
  intros Hi Hrow Hwin Htar. unfold plot_validation.
  destruct (Z.gtb_spec i (len y_test)); [lia |].
  rewrite bind_ret_l, Hrow, bind_ret_l, Hwin, bind_ret_l, !arange_shift.
  replace (len window + len (flatten row) - 1)
    with (len window - 1 + len (flatten row)) by lia.
  apply bind_ext. intros model_output.
  rewrite bind_ret_l. apply bind_ext. intros model_input.
  now rewrite Htar, bind_ret_l.
Qed.

Lemma bind_Ret_inv {B C} (m : M B) (k : B -> M C) out c :
  bind m k = (out, Ret c) ->
  exists o1 b o2, m = (o1, Ret b) /\ k b = (o2, Ret c) /\ out = (o1 ++ o2)%list.
Proof.
  destruct m as [o1 [b|e]]; cbn; [| discriminate].
  destruct (k b) as [o2 r] eqn:Hk. intros [= <- ->].
  now exists o1, b, o2.
Qed.

Lemma index_Ret_inv {B} (s : list B) i out a :
  index s i = (out, Ret a) ->
  index s i = ret a /\ - len s <= i < len s.
Proof.
  intros H.
  destruct (Z.lt_ge_cases i (- len s)) as [Hlo|Hlo];
    [rewrite index_outside in H by lia; discriminate |].
  destruct (Z.lt_ge_cases i (len s)) as [Hhi|Hhi];
    [| rewrite index_outside in H by lia; discriminate].
  destruct (index_inside s i) as (a' & Ha' & _); [lia |].
  rewrite Ha' in H. injection H as <- <-. now split.
Qed.

Lemma data_frame_Ret_inv (d : list Z) (c : list V) out f :
  data_frame d c = (out, Ret f) ->
  f = Frame d c /\ length d = length c.
Proof.
  destruct (data_frame_cases d c) as [[Hlen ->]|[_ ->]]; [| discriminate].
  intros [= <- <-]. now split.
Qed.

(** C7, as the code has it: with as many forecasts, input windows and
    expected outputs, [plot_validation] ends in [IndexError] exactly when
    [i >= len(y_test)] or [i < -len(y_test)]; an index from [-len(y_test)]
    to [-1] counts from the end, and with single-feature windows and
    forecasts as long as the expected outputs every index from
    [-len(y_test)] to [len(y_test) - 1] gives the axes. *)
Theorem plot_validation_index_error val_set y_test i :
  length (predict val_set) = length val_set ->
  length val_set = length y_test ->
  (snd (plot_validation predict val_set y_test i) = Raise IndexError
   <-> i < - len y_test \/ len y_test <= i)
  /\ ((forall w, In w val_set -> length (flatten w) = length w) ->
      (forall (k : nat) row target,
          nth_error (predict val_set) k = Some row ->
          nth_error y_test k = Some target ->
          length (flatten target) = length (flatten row)) ->
      - len y_test <= i < len y_test ->
      exists ax, plot_validation predict val_set y_test i = ([], Ret ax)).
Proof.
  intros Hpred Hval.
  assert (Hlp : len (predict val_set) = len y_test) by (unfold len; lia).
  assert (Hlv : len val_set = len y_test) by (unfold len; lia).
  assert (Hrun : - len y_test <= i < len y_test ->
          exists row window target,
            nth_error (predict val_set)
                      (Z.to_nat (if i <? 0 then i + len y_test else i)) = Some row
            /\ In window val_set
            /\ nth_error y_test
                         (Z.to_nat (if i <? 0 then i + len y_test else i))
               = Some target
            /\ plot_validation predict val_set y_test i
               = (model_output <-
                    data_frame (arange (len window - 1)
                                       (len window - 1 + len (flatten row)))
                               (flatten row) ;;
                  model_input <-
                    data_frame (arange 0 (len window)) (flatten window) ;;
                  expected <-
                    data_frame (arange (len window - 1)
                                       (len window - 1 + len (flatten row)))
                               (flatten target) ;;
                  ret [("predicted", model_output); ("input", model_input);
                       ("expected", expected)])).
  { intros Hin.
    destruct (index_inside (predict val_set) i) as (row & Hrow & Hnr); [lia |].
    destruct (index_inside val_set i) as (window & Hwin & Hnw); [lia |].
    destruct (index_inside y_test i) as (target & Htar & Hnt); [lia |].
    exists row, window, target. rewrite Hlp in Hnr.
    split; [exact Hnr |]. split; [eapply nth_error_In; exact Hnw |].
    split; [exact Hnt |]. apply plot_validation_run; auto; lia. }
  split; [split |].
  - intros Herr.
    destruct (Z.lt_ge_cases i (- len y_test)) as [Hlo|Hlo]; [now left |].
    destruct (Z.lt_ge_cases i (len y_test)) as [Hhi|Hhi]; [| now right].
    exfalso. destruct Hrun as (row & window & target & _ & _ & _ & Heq);
      [lia |].
    rewrite Heq in Herr. clear Heq.
    destruct (data_frame_cases
                (arange (len window - 1) (len window - 1 + len (flatten row)))
                (flatten row)) as [[_ E1]|[_ E1]];
      rewrite E1 in Herr; [| discriminate Herr].
    rewrite bind_ret_l in Herr.
    destruct (data_frame_cases (arange 0 (len window)) (flatten window))
      as [[_ E2]|[_ E2]]; rewrite E2 in Herr; [| discriminate Herr].
    rewrite bind_ret_l in Herr.
    destruct (data_frame_cases
                (arange (len window - 1) (len window - 1 + len (flatten row)))
                (flatten target)) as [[_ E3]|[_ E3]];
      rewrite E3 in Herr; discriminate Herr.
  - intros Hout. unfold plot_validation.
    destruct (Z.gtb_spec i (len y_test)); [reflexivity |].
    rewrite bind_ret_l, index_outside by lia. reflexivity.
  - intros Hflat Hsame Hin.
    destruct Hrun as (row & window & target & Hnr & Hw & Hnt & Heq);
      [exact Hin |].
    rewrite Heq. clear Heq.
    destruct (data_frame_cases
                (arange (len window - 1) (len window - 1 + len (flatten row)))
                (flatten row)) as [[_ ->]|[Hne _]];
      [| exfalso; apply Hne; rewrite length_arange; unfold len; lia].
    rewrite bind_ret_l.
    destruct (data_frame_cases (arange 0 (len window)) (flatten window))
      as [[_ ->]|[Hne _]];
      [| exfalso; apply Hne; rewrite length_arange, (Hflat _ Hw);
         unfold len; lia].
    rewrite bind_ret_l.
    destruct (data_frame_cases
                (arange (len window - 1) (len window - 1 + len (flatten row)))
                (flatten target)) as [[_ ->]|[Hne _]];
      [| exfalso; apply Hne; rewrite length_arange, (Hsame _ _ _ Hnr Hnt);
         unfold len; lia].
    rewrite bind_ret_l. eexists. reflexivity.
Qed.

(** C8, as the code has it: in the axes [plot_validation] returns, the
    input window is plotted at the offsets [0 .. len(input) - 1], and the
    forecast and the expected output both start at offset [len(input) - 1],
    the offset of the last input point, and run for [len(forecast)]
    steps. *)
Theorem plot_validation_offsets val_set y_test i out ax :
  plot_validation predict val_set y_test i = (out, Ret ax) ->
  exists window row target,
    index val_set i = ret window
    /\ index (predict val_set) i = ret row
    /\ index y_test i = ret target
    /\ ax = [("predicted",
              Frame (arange (len window - 1)
                            (len window - 1 + len (flatten row)))
                    (flatten row));
             ("input", Frame (arange 0 (len window)) (flatten window));
             ("expected",
              Frame (arange (len window - 1)
                            (len window - 1 + len (flatten row)))
                    (flatten target))]
    /\ (forall k : nat,
          nth_error (arange 0 (len window)) k
          = if (k <? length window)%nat then Some (Z.of_nat k) else None)
    /\ (forall k : nat,
          nth_error (arange (len window - 1)
                            (len window - 1 + len (flatten row))) k
          = if (k <? length (flatten row))%nat
            then Some (len window - 1 + Z.of_nat k) else None)
    /\ length (flatten target) = length (flatten row).
Proof.
  intros Hrun.
  assert (Hguard : i <= len y_test).
  { unfold plot_validation in Hrun.
    destruct (Z.gtb_spec i (len y_test)); [discriminate Hrun | lia]. }
  pose proof Hrun as Hchain. unfold plot_validation in Hchain.
  destruct (Z.gtb_spec i (len y_test)); [lia |].
  rewrite bind_ret_l in Hchain.
  apply bind_Ret_inv in Hchain as (o1 & row & o2 & Hrow & Hchain & _).
  apply index_Ret_inv in Hrow as [Hrow _].
  apply bind_Ret_inv in Hchain as (o3 & window & o4 & Hwin & Hchain & _).
  apply index_Ret_inv in Hwin as [Hwin _].
  apply bind_Ret_inv in Hchain as (o5 & fr1 & o6 & _ & Hchain & _).
  apply bind_Ret_inv in Hchain as (o7 & window' & o8 & _ & Hchain & _).
  apply bind_Ret_inv in Hchain as (o9 & fr2 & o10 & _ & Hchain & _).
  apply bind_Ret_inv in Hchain as (o11 & target & o12 & Htar & _ & _).
  apply index_Ret_inv in Htar as [Htar _].
  rewrite (plot_validation_run val_set y_test i row window target)
    in Hrun by assumption.
  apply bind_Ret_inv in Hrun as (p1 & f1 & p2 & Hf1 & Hrun & _).
  apply data_frame_Ret_inv in Hf1 as [-> Hl1].
  apply bind_Ret_inv in Hrun as (p3 & f2 & p4 & Hf2 & Hrun & _).
  apply data_frame_Ret_inv in Hf2 as [-> Hl2].
  apply bind_Ret_inv in Hrun as (p5 & f3 & p6 & Hf3 & Hrun & _).
  apply data_frame_Ret_inv in Hf3 as [-> Hl3].
  injection Hrun as _ <-.
  exists window, row, target.
  repeat (split; [assumption || reflexivity |]).
  split; [| split].
  - intros k. rewrite nth_error_arange.
    replace (Z.to_nat (len window - 0)) with (length window)
      by (unfold len; lia).
    reflexivity.
  - intros k. rewrite nth_error_arange.
    replace (Z.to_nat (len window - 1 + len (flatten row) - (len window - 1)))
      with (length (flatten row)) by (unfold len; lia).
    reflexivity.
  - congruence.
Qed.

End PlotterFacts.

(** A batch of one sample for the examples: an input window [1, 2, 3], the
    expected output [3, 4] and a model that forecasts [3, 5]. *)
Lemma plot_validation_index_error_witness :
  length ((fun _ => [[[3]; [5]]]) [[[1]; [2]; [3]]]) = length [[[1]; [2]; [3]]]
  /\ length [[[1]; [2]; [3]]] = length [[[3]; [4]]]
  /\ snd (plot_validation (fun _ => [[[3]; [5]]])
                          [[[1]; [2]; [3]]] [[[3]; [4]]] 1)
     = Raise IndexError
  /\ exists ax,
       plot_validation (fun _ => [[[3]; [5]]])
                       [[[1]; [2]; [3]]] [[[3]; [4]]] 0 = ([], Ret ax).
Proof.
  split; [reflexivity |]. split; [reflexivity |]. split.
  - apply (proj1 (plot_validation_index_error
                    (fun _ => [[[3]; [5]]]) [[[1]; [2]; [3]]] [[[3]; [4]]] 1
                    eq_refl eq_refl)).
    right. vm_compute. discriminate.
  - apply (proj2 (plot_validation_index_error
                    (fun _ => [[[3]; [5]]]) [[[1]; [2]; [3]]] [[[3]; [4]]] 0
                    eq_refl eq_refl)).
    + intros w [<-|[]]. reflexivity.
    + intros [|[|k]] row target Hrow Htarget; try discriminate Hrow.
      injection Hrow as <-. injection Htarget as <-. reflexivity.
    + unfold len. cbn. lia.
Defined.

(** C7 as stated fails below zero: index -1 is outside
    [0 <= i < len(y_test)] and the call returns the plot of the last
    sample. *)
Lemma plot_validation_negative_index :
  ~ (0 <= -1 < len [[[3]; [4]]])
  /\ plot_validation (fun _ => [[[3]; [5]]]) [[[1]; [2]; [3]]] [[[3]; [4]]] (-1)
     = ([], Ret [("predicted", Frame [2; 3] [3; 5]);
                 ("input", Frame [0; 1; 2] [1; 2; 3]);
                 ("expected", Frame [2; 3] [3; 4])])
  /\ snd (plot_validation (fun _ => [[[3]; [5]]])
                          [[[1]; [2]; [3]]] [[[3]; [4]]] (-1))
     <> Raise IndexError.
Proof.
  split; [lia |]. split; [reflexivity | discriminate].
Qed.

Lemma plot_validation_offsets_witness :
  plot_validation (fun _ => [[[3]; [5]]]) [[[1]; [2]; [3]]] [[[3]; [4]]] 0
  = ([], Ret [("predicted", Frame [2; 3] [3; 5]);
              ("input", Frame [0; 1; 2] [1; 2; 3]);
              ("expected", Frame [2; 3] [3; 4])])
  /\ exists window row target,
       index [[[1]; [2]; [3]]] 0 = ret window
       /\ index [[[3]; [5]]] 0 = ret row
       /\ index [[[3]; [4]]] 0 = ret target
       /\ length (flatten target) = length (flatten row).
Proof.
  split; [reflexivity |].
  destruct (plot_validation_offsets
              (fun _ => [[[3]; [5]]]) [[[1]; [2]; [3]]] [[[3]; [4]]] 0 []
              [("predicted", Frame [2; 3] [3; 5]);
               ("input", Frame [0; 1; 2] [1; 2; 3]);
               ("expected", Frame [2; 3] [3; 4])] eq_refl)
    as (window & row & target & Hw & Hr & Ht & _ & _ & _ & Hlen).
  exists window, row, target. repeat split; assumption.
Defined.

(** C8 as stated fails on that sample: the input window has three points
    and the forecast is plotted from offset 2, not from offset 3. *)
Lemma forecast_not_at_len_input :
  index [[[1]; [2]; [3]]] 0 = ret [[1]; [2]; [3]]
  /\ ~ (exists out ax line,
          plot_validation (fun _ => [[[3]; [5]]])
                          [[[1]; [2]; [3]]] [[[3]; [4]]] 0 = (out, Ret ax)
          /\ nth_error ax 0 = Some ("predicted", line)
          /\ hd_error (dates line) = Some (len [[1]; [2]; [3]])).
Proof.
  split; [reflexivity |].
  intros (out & ax & line & Hrun & Hline & Hstart).
  vm_compute in Hrun. injection Hrun as _ <-.
  cbn in Hline. injection Hline as <-. cbn in Hstart. discriminate Hstart.
Qed.

(** * Further properties of the helpers *)

(** ** Windows as sub-lists *)

Section WindowAlgebra.

Context {A : Type}.
Implicit Types s t : list A.

Lemma firstn_plus s (a b : nat) :
  firstn (a + b) s = firstn a s ++ firstn b (skipn a s).
Proof.
  revert s. induction a as [|a IH]; intros s; [reflexivity |].
  destruct s as [|x s]; cbn [Nat.add firstn skipn app].
  - now rewrite firstn_nil.
  - now rewrite IH.
Qed.

Lemma window_app_l s t (start width : nat) :
  (start + width <= length s)%nat ->
  window (s ++ t) start width = window s start width.
Proof.
  intros H. unfold window. rewrite skipn_app, firstn_app, length_skipn.
  replace (width - (length s - start))%nat with 0%nat by lia.
  cbn [firstn]. apply app_nil_r.
Qed.

Lemma window_firstn s (cut start width : nat) :
  (start + width <= cut)%nat ->
  window (firstn cut s) start width = window s start width.
Proof.
  intros H. unfold window.
  rewrite skipn_firstn_comm, firstn_firstn. f_equal. lia.
Qed.

Lemma window_skipn s (cut start width : nat) :
  window (skipn cut s) start width = window s (cut + start) width.
Proof.
  unfold window. rewrite skipn_skipn. do 2 f_equal. lia.
Qed.

Lemma window_tail s (start width : nat) :
  skipn 1 (window s start width) = window s (S start) (width - 1).
Proof.
  unfold window. rewrite skipn_firstn_comm, skipn_skipn. reflexivity.
Qed.

Lemma window_front s (start width width' : nat) :
  (width' <= width)%nat ->
  firstn width' (window s start width) = window s start width'.
Proof.
  intros H. unfold window. rewrite firstn_firstn. f_equal. lia.
Qed.

Lemma firstn_seq_0 (n c : nat) : firstn n (seq 0 c) = seq 0 (Nat.min n c).
Proof.
  destruct (Nat.le_gt_cases n c) as [Hle|Hgt].
  - rewrite Nat.min_l by lia.
    replace c with (n + (c - n))%nat at 1 by lia.
    rewrite seq_app, firstn_app, length_seq, Nat.sub_diag. cbn [firstn].
    rewrite app_nil_r. apply firstn_all2. rewrite length_seq. lia.
  - rewrite Nat.min_r by lia. apply firstn_all2. rewrite length_seq. lia.
Qed.

Lemma map_seq_from {B} (f : nat -> B) (a c : nat) :
  map f (seq a c) = map (fun k => f (a + k)%nat) (seq 0 c).
Proof.
  revert a. induction c as [|c IH]; intros a; [reflexivity |].
  cbn [seq map]. rewrite Nat.add_0_r. f_equal.
  rewrite IH, <- seq_shift, map_map. apply map_ext. intros k. f_equal. lia.
Qed.

(** What a returning call has computed. *)
Lemma split_sequence_Ret_inv s n_in n_out out inputs outputs :
  1 <= n_in -> 1 <= n_out ->
  _split_sequence s n_in n_out = (out, Ret (inputs, outputs)) ->
  n_in + n_out <= len s /\ out = []
  /\ inputs = windows_in s n_in n_out /\ outputs = windows_out s n_in n_out.
Proof.
  intros Hi Ho Hrun.
  destruct (Z.lt_ge_cases (len s) (n_in + n_out)) as [Hlt|Hge].
  - rewrite split_sequence_exit in Hrun by assumption. discriminate.
  - rewrite split_sequence_closed in Hrun by assumption.
    injection Hrun as <- <- <-. auto.
Qed.

Lemma length_windows_in s n_in n_out :
  length (windows_in s n_in n_out) = window_count s n_in n_out.
Proof. unfold windows_in. now rewrite length_map, length_seq. Qed.

Lemma length_windows_out s n_in n_out :
  length (windows_out s n_in n_out) = window_count s n_in n_out.
Proof. unfold windows_out. now rewrite length_map, length_seq. Qed.

Lemma nth_error_windows_in s n_in n_out (k : nat) x :
  nth_error (windows_in s n_in n_out) k = Some x ->
  (k < window_count s n_in n_out)%nat /\ x = window s k (Z.to_nat n_in).
Proof.
  unfold windows_in. rewrite nth_error_map_seq.
  destruct (Nat.ltb_spec k (window_count s n_in n_out)); [| discriminate].
  intros [= <-]. now split.
Qed.

Lemma nth_error_windows_out s n_in n_out (k : nat) y :
  nth_error (windows_out s n_in n_out) k = Some y ->
  (k < window_count s n_in n_out)%nat
  /\ y = window s (k + Z.to_nat n_in - 1) (Z.to_nat n_out).
Proof.
  unfold windows_out. rewrite nth_error_map_seq.
  destruct (Nat.ltb_spec k (window_count s n_in n_out)); [| discriminate].
  intros [= <-]. now split.
Qed.

(** X1: for positive window lengths a call either exits or returns
    [len(s) - (n_input + n_output) + 2] inputs and as many outputs; that
    number is at least two, so no call returns an empty or a one-window
    result. *)
Theorem split_sequence_count s n_in n_out :
  1 <= n_in -> 1 <= n_out ->
  (len s < n_in + n_out
   /\ _split_sequence s n_in n_out
      = (["sequence to short"], Raise (SystemExit None)))
  \/ (n_in + n_out <= len s
      /\ exists inputs outputs,
           _split_sequence s n_in n_out = ([], Ret (inputs, outputs))
           /\ len inputs = len s - (n_in + n_out) + 2
           /\ len outputs = len s - (n_in + n_out) + 2
           /\ 2 <= len inputs).
Proof.
  intros Hi Ho.
  destruct (Z.lt_ge_cases (len s) (n_in + n_out)) as [Hlt|Hge].
  - left. split; [assumption | now apply split_sequence_exit].
  - right. split; [assumption |].
    exists (windows_in s n_in n_out), (windows_out s n_in n_out).
    split; [now apply split_sequence_closed |].
    unfold len at 1 3 5.
    rewrite length_windows_in, length_windows_out.
    unfold window_count. lia.
Qed.

(** X2: successive windows slide by one step: dropping the first element
    of window [k] gives window [k+1] without its last element, for the
    inputs and for the outputs. *)
Theorem split_sequence_shift s n_in n_out out inputs outputs :
  1 <= n_in -> 1 <= n_out ->
  _split_sequence s n_in n_out = (out, Ret (inputs, outputs)) ->
  forall (k : nat),
    (forall x x', nth_error inputs k = Some x ->
                  nth_error inputs (S k) = Some x' ->
                  skipn 1 x = removelast x')
    /\ (forall y y', nth_error outputs k = Some y ->
                     nth_error outputs (S k) = Some y' ->
                     skipn 1 y = removelast y').
Proof.
  intros Hi Ho Hrun k.
  apply split_sequence_Ret_inv in Hrun as (Hlen & _ & -> & ->);
    [| assumption | assumption].
  assert (Hrl : forall (start width : nat),
             (S start + width <= length s)%nat -> (1 <= width)%nat ->
             removelast (window s (S start) width)
             = window s (S start) (width - 1)).
  { intros start width Hfit Hw.
    rewrite removelast_firstn_len.
    unfold window at 1. rewrite length_window by assumption.
    rewrite window_front by lia. f_equal. lia. }
  split.
  - intros x x' Hx Hx'.
    apply nth_error_windows_in in Hx as [_ ->].
    apply nth_error_windows_in in Hx' as [Hk ->].
    apply window_count_spec in Hk. unfold len in *.
    rewrite window_tail, Hrl by lia. reflexivity.
  - intros y y' Hy Hy'.
    apply nth_error_windows_out in Hy as [_ ->].
    apply nth_error_windows_out in Hy' as [Hk ->].
    apply window_count_spec in Hk. unfold len in *.
    replace (S k + Z.to_nat n_in - 1)%nat with (S (k + Z.to_nat n_in - 1))
      by lia.
    rewrite window_tail, Hrl by lia. reflexivity.
Qed.

End WindowAlgebra.

(** ** What the windows keep of the sequence *)

Section WindowCoverage.

Context {A : Type}.
Implicit Types s t : list A.

Lemma heads_of_windows s (width c : nat) :
  (1 <= width)%nat ->
  flat_map (firstn 1) (map (fun k => window s k width) (seq 0 c)) = firstn c s.
Proof.
  intros Hw. induction c as [|c IH]; [reflexivity |].
  rewrite seq_S, map_app, flat_map_app, IH. cbn [Nat.add map flat_map].
  rewrite app_nil_r, window_front by assumption.
  replace (S c) with (c + 1)%nat by lia. now rewrite firstn_plus.
Qed.

Lemma last_map_seq {B} (f : nat -> B) (c : nat) (d : B) :
  last (map f (seq 0 (S c))) d = f c.
Proof. rewrite seq_S, map_app. cbn [Nat.add map]. apply last_last. Qed.

Lemma windows_rebuild s n_in n_out :
  1 <= n_in -> 1 <= n_out -> n_in + n_out <= len s ->
  s = flat_map (firstn 1) (windows_in s n_in n_out)
      ++ skipn 1 (last (windows_in s n_in n_out) [])
      ++ skipn 1 (last (windows_out s n_in n_out) []).
Proof.
  intros Hi Ho Hlen.
  unfold windows_in, windows_out.
  destruct (window_count s n_in n_out) as [|c] eqn:Hc;
    [unfold window_count in Hc; lia |].
  rewrite heads_of_windows by lia.
  rewrite (last_map_seq (fun k => window s k (Z.to_nat n_in))).
  rewrite (last_map_seq
             (fun k => window s (k + Z.to_nat n_in - 1) (Z.to_nat n_out))).
  rewrite !window_tail.
  assert (Hs : length s = (S c + (Z.to_nat n_in - 1) + (Z.to_nat n_out - 1))%nat)
    by (unfold window_count, len in *; lia).
  replace (S (c + Z.to_nat n_in - 1)) with (Z.to_nat n_in - 1 + S c)%nat by lia.
  unfold window.
  rewrite (firstn_all2 (n := Z.to_nat n_out - 1))
    by (rewrite length_skipn; lia).
  rewrite <- skipn_skipn, (firstn_skipn (Z.to_nat n_in - 1)).
  symmetry. apply firstn_skipn.
Qed.

(** X3: nothing of the sequence is lost in a returning call: the first
    elements of the inputs, then the rest of the last input, then the rest
    of the last output, put the sequence back. *)
Theorem split_sequence_rebuild s n_in n_out out inputs outputs :
  1 <= n_in -> 1 <= n_out ->
  _split_sequence s n_in n_out = (out, Ret (inputs, outputs)) ->
  s = flat_map (firstn 1) inputs
      ++ skipn 1 (last inputs []) ++ skipn 1 (last outputs []).
Proof.
  intros Hi Ho Hrun.
  apply split_sequence_Ret_inv in Hrun as (Hlen & _ & -> & ->);
    [| assumption | assumption].
  now apply windows_rebuild.
Qed.

(** X4: more data never changes the windows already cut: the result on
    [s ++ t] is the result on [s] followed by one more window per added
    element. *)
Theorem split_sequence_prefix_stable s t n_in n_out out inputs outputs :
  1 <= n_in -> 1 <= n_out ->
  _split_sequence s n_in n_out = (out, Ret (inputs, outputs)) ->
  exists more_in more_out,
    _split_sequence (s ++ t) n_in n_out
    = ([], Ret (inputs ++ more_in, outputs ++ more_out))
    /\ length more_in = length t /\ length more_out = length t.
Proof.
  intros Hi Ho Hrun.
  apply split_sequence_Ret_inv in Hrun as (Hlen & _ & -> & ->);
    [| assumption | assumption].
  assert (Hst : len (s ++ t) = len s + len t)
    by (unfold len; rewrite length_app; lia).
  assert (Hc : window_count (s ++ t) n_in n_out
               = (window_count s n_in n_out + length t)%nat)
    by (unfold window_count; rewrite Hst; unfold len in *; lia).
  exists (map (fun k => window (s ++ t) k (Z.to_nat n_in))
              (seq (window_count s n_in n_out) (length t))),
         (map (fun k => window (s ++ t) (k + Z.to_nat n_in - 1)
                               (Z.to_nat n_out))
              (seq (window_count s n_in n_out) (length t))).
  rewrite !length_map, !length_seq.
  split; [| split; reflexivity].
  rewrite split_sequence_closed by (try assumption; pose proof (len_nonneg t); lia).
  unfold windows_in, windows_out. rewrite Hc, seq_app, !map_app.
  cbn [Nat.add]. do 3 f_equal.
  - f_equal. apply map_ext_in. intros k Hk. apply in_seq in Hk.
    apply window_app_l.
    assert (Hk' : (k < window_count s n_in n_out)%nat) by lia.
    apply window_count_spec in Hk'. unfold len in *. lia.
  - f_equal. apply map_ext_in. intros k Hk. apply in_seq in Hk.
    apply window_app_l.
    assert (Hk' : (k < window_count s n_in n_out)%nat) by lia.
    apply window_count_spec in Hk'. unfold len in *. lia.
Qed.

End WindowCoverage.

(** ** What [train_val_split] returns, and when *)

Section SplitterOutcome.

Context {A : Type}.
Implicit Types data : list A.

Lemma partitions_cut data n_in n_out val_samples :
  partitions data n_in n_out val_samples
  = (firstn (Z.to_nat (adjust (len data)
                              (split_idx data n_in n_out val_samples))) data,
     skipn (Z.to_nat (adjust (len data)
                             (split_idx data n_in n_out val_samples))) data).
Proof. unfold partitions. now rewrite slice_prefix, slice_suffix. Qed.

(** The two ways a call can end. *)
Lemma train_val_split_outcome data n_in n_out val_samples :
  1 <= n_in -> 1 <= n_out ->
  ((len (fst (partitions data n_in n_out val_samples)) < n_in + n_out
    \/ len (snd (partitions data n_in n_out val_samples)) < n_in + n_out)
   /\ train_val_split data n_in n_out val_samples
      = (["sequence to short"], Raise (SystemExit None)))
  \/ (n_in + n_out <= len (fst (partitions data n_in n_out val_samples))
      /\ n_in + n_out <= len (snd (partitions data n_in n_out val_samples))
      /\ train_val_split data n_in n_out val_samples
         = ([created_message
               (length (windows_in (fst (partitions data n_in n_out val_samples))
                                   n_in n_out))
               (length (windows_in (snd (partitions data n_in n_out val_samples))
                                   n_in n_out))],
            Ret (windows_in (fst (partitions data n_in n_out val_samples))
                            n_in n_out,
                 windows_out (fst (partitions data n_in n_out val_samples))
                             n_in n_out,
                 windows_in (snd (partitions data n_in n_out val_samples))
                            n_in n_out,
                 windows_out (snd (partitions data n_in n_out val_samples))
                             n_in n_out))).
Proof.
  intros Hi Ho. rewrite train_val_split_unfold.
  set (train := fst (partitions data n_in n_out val_samples)).
  set (valid := snd (partitions data n_in n_out val_samples)).
  destruct (Z.lt_ge_cases (len train) (n_in + n_out)) as [Ht|Ht].
  { left. split; [now left |]. now rewrite (split_sequence_exit _ _ _ Ht). }
  destruct (Z.lt_ge_cases (len valid) (n_in + n_out)) as [Hv|Hv].
  { left. split; [now right |].
    rewrite (split_sequence_loop _ _ _ Ht), (split_sequence_exit _ _ _ Hv).
    reflexivity. }
  right. split; [assumption |]. split; [assumption |].
  rewrite !split_sequence_closed by assumption. reflexivity.
Qed.

(** X5: for positive window lengths [train_val_split] ends in one of two
    ways: it prints "sequence to short" once and exits, or it prints the
    "Created ..." line with the two sample counts and returns four arrays,
    inputs and outputs paired, each of at least two windows.  It never
    returns an empty training or validation set. *)
Theorem train_val_split_outcomes data n_in n_out val_samples :
  1 <= n_in -> 1 <= n_out ->
  train_val_split data n_in n_out val_samples
  = (["sequence to short"], Raise (SystemExit None))
  \/ exists x_train y_train x_valid y_valid,
       train_val_split data n_in n_out val_samples
       = ([created_message (length x_train) (length x_valid)],
          Ret (x_train, y_train, x_valid, y_valid))
       /\ length x_train = length y_train /\ (2 <= length x_train)%nat
       /\ length x_valid = length y_valid /\ (2 <= length x_valid)%nat.
Proof.
  intros Hi Ho.
  destruct (train_val_split_outcome data n_in n_out val_samples Hi Ho)
    as [[_ ->]|(Ht & Hv & ->)]; [now left | right].
  do 4 eexists. split; [reflexivity |].
  rewrite !length_windows_in, !length_windows_out.
  unfold window_count. repeat split; lia.
Qed.

(** X6: with at least two validation samples asked for and a series of at
    least [2 * (n_in + n_out) + val_samples - 2] points, the call returns
    [val_samples] validation windows and
    [len(data) - 2 * (n_in + n_out) - val_samples + 4] training windows,
    and reports both counts. *)
Theorem train_val_split_counts data n_in n_out val_samples :
  1 <= n_in -> 1 <= n_out -> 2 <= val_samples ->
  2 * (n_in + n_out) + val_samples - 2 <= len data ->
  exists x_train y_train x_valid y_valid,
    train_val_split data n_in n_out val_samples
    = ([created_message (length x_train) (length x_valid)],
       Ret (x_train, y_train, x_valid, y_valid))
    /\ len x_train = len data - 2 * (n_in + n_out) - val_samples + 4
    /\ len y_train = len data - 2 * (n_in + n_out) - val_samples + 4
    /\ len x_valid = val_samples /\ len y_valid = val_samples.
Proof.
  intros Hi Ho Hvs Hlen.
  assert (Hadj : adjust (len data) (split_idx data n_in n_out val_samples)
                 = len data - (n_in + n_out - 1) - (val_samples - 1))
    by (unfold split_idx; apply adjust_inside; lia).
  destruct (train_val_split_outcome data n_in n_out val_samples Hi Ho)
    as [[Hshort _]|(Ht & Hv & ->)].
  - rewrite len_train, len_validation, Hadj in Hshort. lia.
  - do 4 eexists. split; [reflexivity |].
    unfold len at 1 3 5 6.
    rewrite !length_windows_in, !length_windows_out. unfold window_count.
    rewrite len_train, len_validation, Hadj in *. repeat split; lia.
Qed.

(** X7: asking for one validation sample, or for none or fewer, makes the
    call exit on every series. *)
Theorem train_val_split_needs_two data n_in n_out val_samples :
  1 <= n_in -> 1 <= n_out -> val_samples <= 1 ->
  train_val_split data n_in n_out val_samples
  = (["sequence to short"], Raise (SystemExit None)).
Proof.
  intros Hi Ho Hvs.
  destruct (train_val_split_outcome data n_in n_out val_samples Hi Ho)
    as [[_ ->]|(_ & Hv & _)]; [reflexivity | exfalso].
  rewrite len_validation in Hv. unfold split_idx, adjust in Hv.
  pose proof (len_nonneg data).
  destruct (Z.ltb_spec (len data - (n_in + n_out - 1) - (val_samples - 1)) 0);
    lia.
Qed.

(** X8: when the split index is not negative and the series has fewer than
    [2 * (n_in + n_out) + val_samples - 2] points, the training partition
    is too short and the call exits instead of returning fewer samples. *)
Theorem train_val_split_short_series data n_in n_out val_samples :
  1 <= n_in -> 1 <= n_out ->
  0 <= split_idx data n_in n_out val_samples ->
  len data < 2 * (n_in + n_out) + val_samples - 2 ->
  train_val_split data n_in n_out val_samples
  = (["sequence to short"], Raise (SystemExit None)).
Proof.
  intros Hi Ho Hidx Hlen.
  destruct (train_val_split_outcome data n_in n_out val_samples Hi Ho)
    as [[_ ->]|(Ht & Hv & _)]; [reflexivity | exfalso].
  rewrite len_train in Ht. rewrite len_validation in Hv.
  unfold split_idx, adjust in *.
  destruct (Z.ltb_spec (len data - (n_in + n_out - 1) - (val_samples - 1)) 0);
    lia.
Qed.

End SplitterOutcome.

(** ** The split against the windows of the whole series *)

Section SplitterPositions.

Context {A : Type}.
Implicit Types data : list A.

Lemma windows_in_firstn data (cut : nat) n_in n_out :
  1 <= n_in -> 1 <= n_out ->
  (cut <= length data)%nat -> n_in + n_out <= Z.of_nat cut ->
  windows_in (firstn cut data) n_in n_out
  = firstn (window_count (firstn cut data) n_in n_out)
           (windows_in data n_in n_out)
  /\ windows_out (firstn cut data) n_in n_out
     = firstn (window_count (firstn cut data) n_in n_out)
              (windows_out data n_in n_out).
Proof.
  intros Hi Ho Hcut Hfit.
  assert (Hl : len (firstn cut data) = Z.of_nat cut)
    by (unfold len; rewrite length_firstn; lia).
  assert (Hc : Nat.min (window_count (firstn cut data) n_in n_out)
                       (window_count data n_in n_out)
               = window_count (firstn cut data) n_in n_out)
    by (unfold window_count; rewrite Hl; unfold len; lia).
  unfold windows_in, windows_out.
  rewrite !firstn_map, !firstn_seq_0, !Hc.
  split; apply map_ext_in; intros k Hk; apply in_seq in Hk;
    apply window_firstn; unfold window_count in Hk; rewrite Hl in Hk; lia.
Qed.

Lemma windows_in_skipn data (cut : nat) n_in n_out :
  1 <= n_in -> 1 <= n_out ->
  (cut <= length data)%nat ->
  windows_in (skipn cut data) n_in n_out
  = skipn cut (windows_in data n_in n_out)
  /\ windows_out (skipn cut data) n_in n_out
     = skipn cut (windows_out data n_in n_out).
Proof.
  intros Hi Ho Hcut.
  assert (Hl : len (skipn cut data) = len data - Z.of_nat cut)
    by (unfold len; rewrite length_skipn; lia).
  assert (Hc : window_count (skipn cut data) n_in n_out
               = (window_count data n_in n_out - cut)%nat)
    by (unfold window_count; rewrite Hl; lia).
  unfold windows_in, windows_out.
  rewrite !skipn_map, !skipn_seq, !Hc. cbn [Nat.add].
  rewrite !(map_seq_from _ cut).
  split; apply map_ext; intros k; rewrite window_skipn; f_equal; lia.
Qed.

(** X9: under the conditions of X6 the training windows are the first
    windows of the whole series and the validation windows its last
    [val_samples] windows, inputs and outputs alike; the
    [n_in + n_out - 2] windows in between, which straddle the cut, are in
    neither set. *)
Theorem train_val_split_positions data n_in n_out val_samples :
  1 <= n_in -> 1 <= n_out -> 2 <= val_samples ->
  2 * (n_in + n_out) + val_samples - 2 <= len data ->
  exists all_in all_out out x_train y_train x_valid y_valid,
    _split_sequence data n_in n_out = ([], Ret (all_in, all_out))
    /\ train_val_split data n_in n_out val_samples
       = (out, Ret (x_train, y_train, x_valid, y_valid))
    /\ x_train = firstn (length x_train) all_in
    /\ y_train = firstn (length x_train) all_out
    /\ x_valid = skipn (length all_in - length x_valid) all_in
    /\ y_valid = skipn (length all_in - length x_valid) all_out
    /\ len all_in = len x_train + (n_in + n_out - 2) + len x_valid.
Proof.
  intros Hi Ho Hvs Hlen.
  assert (Hadj : adjust (len data) (split_idx data n_in n_out val_samples)
                 = len data - (n_in + n_out - 1) - (val_samples - 1))
    by (unfold split_idx; apply adjust_inside; lia).
  set (cut := Z.to_nat (adjust (len data)
                               (split_idx data n_in n_out val_samples))).
  assert (Hcut : Z.of_nat cut
                 = len data - (n_in + n_out - 1) - (val_samples - 1))
    by (subst cut; lia).
  assert (Hle : (cut <= length data)%nat) by (unfold len in *; lia).
  destruct (windows_in_firstn data cut n_in n_out) as [Hti Hto];
    [assumption | assumption | assumption | lia |].
  destruct (windows_in_skipn data cut n_in n_out) as [Hvi Hvo];
    [assumption | assumption | assumption |].
  destruct (train_val_split_outcome data n_in n_out val_samples Hi Ho)
    as [[Hshort _]|(Ht & Hv & Hrun)].
  { rewrite len_train, len_validation, Hadj in Hshort. lia. }
  rewrite partitions_cut in Hrun. cbn [fst snd] in Hrun. fold cut in Hrun.
  exists (windows_in data n_in n_out), (windows_out data n_in n_out).
  do 5 eexists.
  split; [apply split_sequence_closed; try assumption; lia |].
  split; [exact Hrun |].
  assert (Hlt : len (firstn cut data) = Z.of_nat cut)
    by (unfold len; rewrite length_firstn; lia).
  assert (Hlv : len (skipn cut data) = len data - Z.of_nat cut)
    by (unfold len; rewrite length_skipn; lia).
  assert (Hskip : (length (windows_in data n_in n_out)
                   - length (windows_in (skipn cut data) n_in n_out))%nat
                  = cut).
  { rewrite !length_windows_in. unfold window_count. rewrite Hlv. lia. }
  rewrite Hskip, length_windows_in.
  split; [exact Hti |]. split; [exact Hto |].
  split; [exact Hvi |]. split; [exact Hvo |].
  unfold len at 1 2 3. rewrite !length_windows_in. unfold window_count.
  rewrite Hlt, Hlv. lia.
Qed.

End SplitterPositions.

(** ** How [plot_validation] ends *)

Section PlotterOutcome.

Context {V : Type}.
Variable predict : list (@sample V) -> list (@sample V).

Lemma index_cases {B} (s : list B) i :
  (exists a, index s i = ret a /\ - len s <= i < len s)
  \/ (index s i = raise IndexError /\ (i < - len s \/ len s <= i)).
Proof.
  destruct (Z.lt_ge_cases i (- len s)) as [Hlo|Hlo];
    [right; split; [apply index_outside |]; lia |].
  destruct (Z.lt_ge_cases i (len s)) as [Hhi|Hhi];
    [| right; split; [apply index_outside |]; lia].
  left. destruct (index_inside s i) as (a & Ha & _); [lia |].
  exists a. split; [assumption | lia].
Qed.

Lemma index_wrap {B} (s : list B) i :
  - len s <= i < 0 -> index s i = index s (i + len s).
Proof.
  intros H. unfold index.
  destruct (Z.ltb_spec i (- len s)); [lia |].
  destruct (Z.leb_spec (len s) i); [lia |].
  destruct (Z.ltb_spec (i + len s) (- len s)); [lia |].
  destruct (Z.leb_spec (len s) (i + len s)); [lia |].
  destruct (Z.ltb_spec i 0); [| lia].
  destruct (Z.ltb_spec (i + len s) 0); [lia |]. reflexivity.
Qed.

Lemma bind_raise {B C} (e : exn) (k : B -> M C) : bind (raise e) k = raise e.
Proof. reflexivity. Qed.

(** A returning call has found its three samples. *)
Lemma plot_validation_Ret_inv val_set y_test i out ax :
  plot_validation predict val_set y_test i = (out, Ret ax) ->
  exists row window target,
    index (predict val_set) i = ret row
    /\ index val_set i = ret window
    /\ index y_test i = ret target
    /\ - len y_test <= i < len y_test.
Proof.
  intros Hrun. unfold plot_validation in Hrun.
  destruct (Z.gtb_spec i (len y_test)); [discriminate Hrun |].
  rewrite bind_ret_l in Hrun.
  apply bind_Ret_inv in Hrun as (o1 & row & o2 & Hrow & Hrun & _).
  apply index_Ret_inv in Hrow as [Hrow _].
  apply bind_Ret_inv in Hrun as (o3 & window & o4 & Hwin & Hrun & _).
  apply index_Ret_inv in Hwin as [Hwin _].
  apply bind_Ret_inv in Hrun as (o5 & fr1 & o6 & _ & Hrun & _).
  apply bind_Ret_inv in Hrun as (o7 & window' & o8 & _ & Hrun & _).
  apply bind_Ret_inv in Hrun as (o9 & fr2 & o10 & _ & Hrun & _).
  apply bind_Ret_inv in Hrun as (o11 & target & o12 & Htar & _ & _).
  apply index_Ret_inv in Htar as [Htar Hin].
  now exists row, window, target.
Qed.

(** The outcome once the three samples are found. *)
Lemma plot_validation_found val_set y_test i row window target :
  i <= len y_test ->
  index (predict val_set) i = ret row ->
  index val_set i = ret window ->
  index y_test i = ret target ->
  (length (flatten window) = length window
   /\ length (flatten target) = length (flatten row)
   /\ plot_validation predict val_set y_test i
      = ([], Ret [("predicted",
                   Frame (arange (len window - 1)
                                 (len window - 1 + len (flatten row)))
                         (flatten row));
                  ("input", Frame (arange 0 (len window)) (flatten window));
                  ("expected",
                   Frame (arange (len window - 1)
                                 (len window - 1 + len (flatten row)))
                         (flatten target))]))
  \/ ((length (flatten window) <> length window
       \/ length (flatten target) <> length (flatten row))
      /\ plot_validation predict val_set y_test i = ([], Raise ValueError)).
Proof.
  intros Hi Hrow Hwin Htar.
  rewrite (plot_validation_run predict val_set y_test i row window target)
    by assumption.
  destruct (data_frame_cases
              (arange (len window - 1) (len window - 1 + len (flatten row)))
              (flatten row)) as [[_ ->]|[Hne _]];
    [| exfalso; apply Hne; rewrite length_arange; unfold len; lia].
  rewrite bind_ret_l.
  destruct (data_frame_cases (arange 0 (len window)) (flatten window))
    as [[H2 ->]|[H2 ->]]; rewrite length_arange in H2;
    [| right; split; [left; unfold len in H2; lia | reflexivity]].
  rewrite bind_ret_l.
  destruct (data_frame_cases
              (arange (len window - 1) (len window - 1 + len (flatten row)))
              (flatten target)) as [[H3 ->]|[H3 ->]]; rewrite length_arange in H3;
    [| right; split; [right; unfold len in H3; lia | reflexivity]].
  left. unfold len in *.
  split; [lia |]. split; [lia | reflexivity].
Qed.

(** X10: for an index outside the range of [y_test], at either end, the
    call never returns axes, whatever the model and the validation set
    are: it ends in [IndexError], or in [ValueError] when a frame of
    mismatched columns is built first, and prints nothing. *)
Theorem plot_validation_out_of_range val_set y_test i :
  i < - len y_test \/ len y_test <= i ->
  plot_validation predict val_set y_test i = ([], Raise IndexError)
  \/ plot_validation predict val_set y_test i = ([], Raise ValueError).
Proof.
  intros Hout. unfold plot_validation.
  destruct (Z.gtb_spec i (len y_test)); [now left |].
  rewrite bind_ret_l.
  destruct (index_cases (predict val_set) i) as [(row & -> & _)|[-> _]];
    [| now left].
  rewrite bind_ret_l.
  destruct (index_cases val_set i) as [(window & -> & _)|[-> _]];
    [| now left].
  rewrite !bind_ret_l.
  destruct (data_frame_cases
              (map (fun d => d - 1)
                   (arange (len window) (len window + len (flatten row))))
              (flatten row)) as [[_ ->]|[_ ->]]; [| now right].
  rewrite !bind_ret_l.
  destruct (data_frame_cases (arange 0 (len window)) (flatten window))
    as [[_ ->]|[_ ->]]; [| now right].
  rewrite bind_ret_l, index_outside by assumption. now left.
Qed.

(** X11: with as many forecasts, input windows and expected outputs, a
    negative index in range is the index counted from the end: the call
    with [i] and the call with [i + len(y_test)] give the same result. *)
Theorem plot_validation_negative_wraps val_set y_test i :
  length (predict val_set) = length val_set ->
  length val_set = length y_test ->
  - len y_test <= i < 0 ->
  plot_validation predict val_set y_test i
  = plot_validation predict val_set y_test (i + len y_test).
Proof.
  intros Hp Hv Hi.
  assert (Hlp : len (predict val_set) = len y_test) by (unfold len; lia).
  assert (Hlv : len val_set = len y_test) by (unfold len; lia).
  unfold plot_validation.
  destruct (Z.gtb_spec i (len y_test)); [lia |].
  destruct (Z.gtb_spec (i + len y_test) (len y_test)); [lia |].
  rewrite (index_wrap (predict val_set) i) by lia.
  rewrite (index_wrap val_set i) by lia.
  rewrite (index_wrap y_test i) by lia.
  now rewrite Hlp, Hlv.
Qed.

(** X12: with as many forecasts, input windows and expected outputs and an
    index in range, the call returns the axes exactly when the input
    window flattens to as many values as it has rows and the expected
    output to as many values as the forecast; otherwise it ends in
    [ValueError]. *)
Theorem plot_validation_shapes val_set y_test i :
  length (predict val_set) = length val_set ->
  length val_set = length y_test ->
  - len y_test <= i < len y_test ->
  exists row window target,
    index (predict val_set) i = ret row
    /\ index val_set i = ret window
    /\ index y_test i = ret target
    /\ ((exists ax, plot_validation predict val_set y_test i = ([], Ret ax))
        <-> (length (flatten window) = length window
             /\ length (flatten target) = length (flatten row)))
    /\ (plot_validation predict val_set y_test i = ([], Raise ValueError)
        <-> (length (flatten window) <> length window
             \/ length (flatten target) <> length (flatten row))).
Proof.
  intros Hp Hv Hi.
  assert (Hlp : len (predict val_set) = len y_test) by (unfold len; lia).
  assert (Hlv : len val_set = len y_test) by (unfold len; lia).
  destruct (index_inside (predict val_set) i) as (row & Hrow & _); [lia |].
  destruct (index_inside val_set i) as (window & Hwin & _); [lia |].
  destruct (index_inside y_test i) as (target & Htar & _); [lia |].
  exists row, window, target.
  split; [assumption |]. split; [assumption |]. split; [assumption |].
  destruct (plot_validation_found val_set y_test i row window target)
    as [(H1 & H2 & ->)|[Hbad ->]]; try assumption; try lia.
  - split; split.
    + intros _. now split.
    + intros _. eexists. reflexivity.
    + discriminate.
    + intros [Hne|Hne]; contradiction.
  - split; split.
    + intros [ax Hax]. discriminate Hax.
    + intros [H1 H2]. destruct Hbad; contradiction.
    + intros _. exact Hbad.
    + reflexivity.
Qed.

End PlotterOutcome.

(** ** Plotting a validation sample of [train_val_split] *)

Section SplitThenPlot.

Context {V : Type}.
Variable predict : list (@sample V) -> list (@sample V).
Implicit Types data : list (list V).

Lemma Forall_window {B} (P : B -> Prop) (l : list B) (start width : nat) :
  Forall P l -> Forall P (window l start width).
Proof.
  intros H. apply Forall_forall. intros x Hx.
  rewrite Forall_forall in H. apply H.
  unfold window in Hx.
  rewrite <- (firstn_skipn start l). apply in_or_app. right.
  rewrite <- (firstn_skipn width (skipn start l)). apply in_or_app. now left.
Qed.

Lemma Forall_skipn_keeps {B} (P : B -> Prop) (l : list B) (n : nat) :
  Forall P l -> Forall P (skipn n l).
Proof.
  intros H. apply Forall_forall. intros x Hx.
  rewrite Forall_forall in H. apply H.
  rewrite <- (firstn_skipn n l). apply in_or_app. now right.
Qed.

Lemma length_flatten_column (a : @sample V) :
  Forall (fun row => length row = 1%nat) a -> length (flatten a) = length a.
Proof.
  unfold flatten. induction 1 as [|row a Hrow _ IH]; [reflexivity |].
  cbn [concat length]. rewrite length_app, IH, Hrow. reflexivity.
Qed.

Lemma nth_error_flatten_column (a : @sample V) (j : nat) row :
  Forall (fun row => length row = 1%nat) a ->
  nth_error a j = Some row ->
  exists v, row = [v] /\ nth_error (flatten a) j = Some v.
Proof.
  unfold flatten. intros Hcol. revert j.
  induction Hcol as [|r a Hr _ IH]; intros j Hj; [now destruct j |].
  destruct r as [|v [|w r]]; try discriminate Hr.
  destruct j as [|j]; cbn in Hj |- *.
  - injection Hj as <-. now exists v.
  - now apply IH.
Qed.

(** X13: the validation arrays of a returning [train_val_split] on a
    series with one value per row can be plotted at every index in range,
    with a model that returns one forecast of [n_out] values per window:
    the input line lies on the offsets [0 .. n_in - 1], the forecast and
    the expected line on [n_in - 1 .. n_in + n_out - 2], and the expected
    line starts on the value the input line ends on. *)
Theorem plot_after_split data n_in n_out val_samples out
    x_train y_train x_valid y_valid i :
  1 <= n_in -> 1 <= n_out ->
  Forall (fun row => length row = 1%nat) data ->
  train_val_split data n_in n_out val_samples
  = (out, Ret (x_train, y_train, x_valid, y_valid)) ->
  length (predict x_valid) = length x_valid ->
  (forall row, In row (predict x_valid) -> len (flatten row) = n_out) ->
  - len y_valid <= i < len y_valid ->
  exists row window target,
    index (predict x_valid) i = ret row
    /\ index x_valid i = ret window
    /\ index y_valid i = ret target
    /\ plot_validation predict x_valid y_valid i
       = ([], Ret [("predicted",
                    Frame (arange (n_in - 1) (n_in - 1 + n_out)) (flatten row));
                   ("input", Frame (arange 0 n_in) (flatten window));
                   ("expected",
                    Frame (arange (n_in - 1) (n_in - 1 + n_out))
                          (flatten target))])
    /\ exists v, nth_error (flatten window) (Z.to_nat n_in - 1) = Some v
                 /\ nth_error (flatten target) 0 = Some v.
Proof.
  intros Hi Ho Hcol Hrun Hp Hrows Hin.
  destruct (train_val_split_outcome data n_in n_out val_samples Hi Ho)
    as [[_ Hexit]|(_ & Hv & Hret)]; [rewrite Hexit in Hrun; discriminate |].
  rewrite Hret in Hrun. clear Hret.
  assert (Hvalid : Forall (fun row => length row = 1%nat)
                          (snd (partitions data n_in n_out val_samples))).
  { rewrite partitions_cut. cbn [snd]. now apply Forall_skipn_keeps. }
  remember (snd (partitions data n_in n_out val_samples)) as valid eqn:Evalid.
  remember (fst (partitions data n_in n_out val_samples)) as train eqn:Etrain.
  injection Hrun as _ _ _ <- <-.
  assert (Hly : len (windows_out valid n_in n_out)
                = len (windows_in valid n_in n_out))
    by (unfold len; now rewrite length_windows_in, length_windows_out).
  assert (Hlp : len (predict (windows_in valid n_in n_out))
                = len (windows_in valid n_in n_out)) by (unfold len; lia).
  destruct (index_inside (predict (windows_in valid n_in n_out)) i)
    as (row & Hrow & Hnr); [lia |].
  destruct (index_inside (windows_in valid n_in n_out) i)
    as (window & Hwin & Hnw); [lia |].
  destruct (index_inside (windows_out valid n_in n_out) i)
    as (target & Htar & Hnt); [lia |].
  rewrite Hly in Hnt.
  assert (Hile : i <= len (windows_out valid n_in n_out)) by lia.
  set (k := Z.to_nat (if i <? 0
                      then i + len (windows_in valid n_in n_out) else i)) in *.
  apply nth_error_windows_in in Hnw as [Hk Ew].
  apply nth_error_windows_out in Hnt as [_ Et].
  apply window_count_spec in Hk. unfold len in Hk.
  assert (Hlw : length window = Z.to_nat n_in)
    by (rewrite Ew; apply length_window; lia).
  assert (Hlt : length target = Z.to_nat n_out)
    by (rewrite Et; apply length_window; lia).
  assert (Hcw : Forall (fun row => length row = 1%nat) window)
    by (rewrite Ew; now apply Forall_window).
  assert (Hct : Forall (fun row => length row = 1%nat) target)
    by (rewrite Et; now apply Forall_window).
  assert (Hfr : len (flatten row) = n_out)
    by (apply Hrows; eapply nth_error_In; exact Hnr).
  exists row, window, target.
  split; [assumption |]. split; [assumption |]. split; [assumption |].
  split.
  - destruct (plot_validation_found predict (windows_in valid n_in n_out)
                                    (windows_out valid n_in n_out)
                                    i row window target)
      as [(_ & _ & ->)|[Hbad _]]; try assumption; try lia.
    + assert (Hzw : len window = n_in) by (unfold len; lia).
      rewrite Hzw, Hfr. reflexivity.
    + exfalso. rewrite !length_flatten_column in Hbad by assumption.
      unfold len in Hfr. destruct Hbad as [Hbad|Hbad]; [contradiction | lia].
  - destruct (nth_error valid (k + (Z.to_nat n_in - 1))) as [last_row|] eqn:Hlast;
      [| apply nth_error_None in Hlast; lia].
    destruct (nth_error_flatten_column window (Z.to_nat n_in - 1) last_row)
      as (v & Ev & Hv1); [assumption | |].
    { rewrite Ew, nth_error_window by lia. exact Hlast. }
    destruct (nth_error_flatten_column target 0 last_row)
      as (v' & Ev' & Hv2); [assumption | |].
    { rewrite Et, nth_error_window by lia. rewrite <- Hlast. f_equal. lia. }
    exists v. split; [exact Hv1 |]. congruence.
Qed.

End SplitThenPlot.

(** ** The further properties on concrete inputs *)

Lemma split_sequence_count_witness :
  1 <= 3 /\ 1 <= 2
  /\ exists inputs outputs,
       _split_sequence [1; 2; 3; 4; 5; 6] 3 2 = ([], Ret (inputs, outputs))
       /\ len inputs = 3 /\ len outputs = 3.
Proof.
  split; [lia |]. split; [lia |].
  destruct (split_sequence_count [1; 2; 3; 4; 5; 6] 3 2)
    as [[Hshort _]|(_ & inputs & outputs & Hrun & Hin & Hout & _)];
    [lia | lia | exfalso; revert Hshort; by_evaluation |].
  exists inputs, outputs. split; [exact Hrun |].
  split; [rewrite Hin | rewrite Hout]; by_evaluation.
Defined.

Lemma split_sequence_shift_witness :
  1 <= 3 /\ 1 <= 2
  /\ _split_sequence [1; 2; 3; 4; 5] 3 2
     = ([], Ret ([[1; 2; 3]; [2; 3; 4]], [[3; 4]; [4; 5]]))
  /\ skipn 1 [1; 2; 3] = removelast [2; 3; 4]
  /\ skipn 1 [3; 4] = removelast [4; 5].
Proof.
  split; [lia |]. split; [lia |]. split; [reflexivity |].
  destruct (split_sequence_shift [1; 2; 3; 4; 5] 3 2 []
              [[1; 2; 3]; [2; 3; 4]] [[3; 4]; [4; 5]]
              ltac:(lia) ltac:(lia) eq_refl 0%nat) as [Hx Hy].
  split; [exact (Hx _ _ eq_refl eq_refl) | exact (Hy _ _ eq_refl eq_refl)].
Defined.

Lemma split_sequence_rebuild_witness :
  1 <= 3 /\ 1 <= 2
  /\ _split_sequence [1; 2; 3; 4; 5; 6] 3 2
     = ([], Ret ([[1; 2; 3]; [2; 3; 4]; [3; 4; 5]], [[3; 4]; [4; 5]; [5; 6]]))
  /\ [1; 2; 3; 4; 5; 6]
     = flat_map (firstn 1) [[1; 2; 3]; [2; 3; 4]; [3; 4; 5]]
       ++ skipn 1 (last [[1; 2; 3]; [2; 3; 4]; [3; 4; 5]] [])
       ++ skipn 1 (last [[3; 4]; [4; 5]; [5; 6]] []).
Proof.
  split; [lia |]. split; [lia |]. split; [reflexivity |].
  apply (split_sequence_rebuild [1; 2; 3; 4; 5; 6] 3 2 []
           [[1; 2; 3]; [2; 3; 4]; [3; 4; 5]] [[3; 4]; [4; 5]; [5; 6]]);
    [lia | lia | reflexivity].
Defined.

Lemma split_sequence_prefix_stable_witness :
  1 <= 3 /\ 1 <= 2
  /\ _split_sequence [1; 2; 3; 4; 5] 3 2
     = ([], Ret ([[1; 2; 3]; [2; 3; 4]], [[3; 4]; [4; 5]]))
  /\ exists more_in more_out,
       _split_sequence ([1; 2; 3; 4; 5] ++ [6; 7]) 3 2
       = ([], Ret ([[1; 2; 3]; [2; 3; 4]] ++ more_in,
                   [[3; 4]; [4; 5]] ++ more_out))
       /\ length more_in = 2%nat /\ length more_out = 2%nat.
Proof.
  split; [lia |]. split; [lia |]. split; [reflexivity |].
  apply (split_sequence_prefix_stable [1; 2; 3; 4; 5] [6; 7] 3 2 []
           [[1; 2; 3]; [2; 3; 4]] [[3; 4]; [4; 5]]);
    [lia | lia | reflexivity].
Defined.

Lemma train_val_split_outcomes_witness :
  1 <= 2 /\ 1 <= 2
  /\ (train_val_split [1; 2; 3; 4; 5; 6; 7; 8] 2 2 2
      = (["sequence to short"], Raise (SystemExit None))
      \/ exists x_train y_train x_valid y_valid,
           train_val_split [1; 2; 3; 4; 5; 6; 7; 8] 2 2 2
           = ([created_message (length x_train) (length x_valid)],
              Ret (x_train, y_train, x_valid, y_valid))
           /\ length x_train = length y_train /\ (2 <= length x_train)%nat
           /\ length x_valid = length y_valid /\ (2 <= length x_valid)%nat).
Proof.
  split; [lia |]. split; [lia |].
  apply (train_val_split_outcomes [1; 2; 3; 4; 5; 6; 7; 8] 2 2 2); lia.
Defined.

Lemma train_val_split_counts_witness :
  1 <= 2 /\ 1 <= 2 /\ 2 <= 3
  /\ 2 * (2 + 2) + 3 - 2 <= len [1; 2; 3; 4; 5; 6; 7; 8; 9; 10]
  /\ exists x_train y_train x_valid y_valid,
       train_val_split [1; 2; 3; 4; 5; 6; 7; 8; 9; 10] 2 2 3
       = ([created_message (length x_train) (length x_valid)],
          Ret (x_train, y_train, x_valid, y_valid))
       /\ len x_train = 3 /\ len x_valid = 3.
Proof.
  assert (H : 2 * (2 + 2) + 3 - 2 <= len [1; 2; 3; 4; 5; 6; 7; 8; 9; 10])
    by by_evaluation.
  split; [lia |]. split; [lia |]. split; [lia |]. split; [exact H |].
  destruct (train_val_split_counts [1; 2; 3; 4; 5; 6; 7; 8; 9; 10] 2 2 3)
    as (xt & yt & xv & yv & Hrun & Hxt & _ & Hxv & _); [lia | lia | lia | exact H |].
  exists xt, yt, xv, yv. split; [exact Hrun |].
  split; [rewrite Hxt; by_evaluation | exact Hxv].
Defined.

Lemma train_val_split_needs_two_witness :
  1 <= 3 /\ 1 <= 2 /\ 0 <= 1
  /\ train_val_split [1; 2; 3; 4; 5; 6; 7; 8; 9; 10; 11; 12] 3 2 0
     = (["sequence to short"], Raise (SystemExit None)).
Proof.
  split; [lia |]. split; [lia |]. split; [lia |].
  apply (train_val_split_needs_two [1; 2; 3; 4; 5; 6; 7; 8; 9; 10; 11; 12] 3 2 0);
    lia.
Defined.

Lemma train_val_split_short_series_witness :
  1 <= 2 /\ 1 <= 2
  /\ 0 <= split_idx [1; 2; 3; 4; 5; 6; 7] 2 2 2
  /\ len [1; 2; 3; 4; 5; 6; 7] < 2 * (2 + 2) + 2 - 2
  /\ train_val_split [1; 2; 3; 4; 5; 6; 7] 2 2 2
     = (["sequence to short"], Raise (SystemExit None)).
Proof.
  assert (H1 : 0 <= split_idx [1; 2; 3; 4; 5; 6; 7] 2 2 2)
    by (unfold split_idx; by_evaluation).
  assert (H2 : len [1; 2; 3; 4; 5; 6; 7] < 2 * (2 + 2) + 2 - 2) by by_evaluation.
  split; [lia |]. split; [lia |]. split; [exact H1 |]. split; [exact H2 |].
  apply (train_val_split_short_series [1; 2; 3; 4; 5; 6; 7] 2 2 2);
    [lia | lia | exact H1 | exact H2].
Defined.

Lemma train_val_split_positions_witness :
  1 <= 2 /\ 1 <= 2 /\ 2 <= 2
  /\ 2 * (2 + 2) + 2 - 2 <= len [1; 2; 3; 4; 5; 6; 7; 8]
  /\ exists all_in all_out out x_train y_train x_valid y_valid,
       _split_sequence [1; 2; 3; 4; 5; 6; 7; 8] 2 2 = ([], Ret (all_in, all_out))
       /\ train_val_split [1; 2; 3; 4; 5; 6; 7; 8] 2 2 2
          = (out, Ret (x_train, y_train, x_valid, y_valid))
       /\ x_train = firstn (length x_train) all_in
       /\ x_valid = skipn (length all_in - length x_valid) all_in.
Proof.
  assert (H : 2 * (2 + 2) + 2 - 2 <= len [1; 2; 3; 4; 5; 6; 7; 8])
    by by_evaluation.
  split; [lia |]. split; [lia |]. split; [lia |]. split; [exact H |].
  destruct (train_val_split_positions [1; 2; 3; 4; 5; 6; 7; 8] 2 2 2)
    as (ai & ao & out & xt & yt & xv & yv & Hall & Hrun & Hxt & _ & Hxv & _);
    [lia | lia | lia | exact H |].
  exists ai, ao, out, xt, yt, xv, yv. repeat split; assumption.
Defined.

Lemma plot_validation_out_of_range_witness :
  (5 < - len [[[3]; [4]]] \/ len [[[3]; [4]]] <= 5)
  /\ (plot_validation (fun _ => [[[3]; [5]]]) [[[1]; [2]; [3]]] [[[3]; [4]]] 5
      = ([], Raise IndexError)
      \/ plot_validation (fun _ => [[[3]; [5]]]) [[[1]; [2]; [3]]] [[[3]; [4]]] 5
         = ([], Raise ValueError)).
Proof.
  assert (H : 5 < - len [[[3]; [4]]] \/ len [[[3]; [4]]] <= 5)
    by (right; by_evaluation).
  split; [exact H |].
  exact (plot_validation_out_of_range
           (fun _ => [[[3]; [5]]]) [[[1]; [2]; [3]]] [[[3]; [4]]] 5 H).
Defined.

Lemma plot_validation_negative_wraps_witness :
  - len [[[3]; [4]]; [[4]; [5]]] <= -1 < 0
  /\ plot_validation (fun _ => [[[3]; [5]]; [[4]; [6]]])
                     [[[1]; [2]; [3]]; [[2]; [3]; [4]]]
                     [[[3]; [4]]; [[4]; [5]]] (-1)
     = plot_validation (fun _ => [[[3]; [5]]; [[4]; [6]]])
                       [[[1]; [2]; [3]]; [[2]; [3]; [4]]]
                       [[[3]; [4]]; [[4]; [5]]]
                       (-1 + len [[[3]; [4]]; [[4]; [5]]]).
Proof.
  assert (H : - len [[[3]; [4]]; [[4]; [5]]] <= -1 < 0) by by_evaluation.
  split; [exact H |].
  exact (plot_validation_negative_wraps
           (fun _ => [[[3]; [5]]; [[4]; [6]]])
           [[[1]; [2]; [3]]; [[2]; [3]; [4]]]
           [[[3]; [4]]; [[4]; [5]]] (-1) eq_refl eq_refl H).
Defined.

Lemma plot_validation_shapes_witness :
  - len [[[3]; [4]]] <= 0 < len [[[3]; [4]]]
  /\ exists row window target,
       index [[[3]; [5]]] 0 = ret row
       /\ index [[[1]; [2]; [3]]] 0 = ret window
       /\ index [[[3]; [4]]] 0 = ret target.
Proof.
  assert (H : - len [[[3]; [4]]] <= 0 < len [[[3]; [4]]]) by by_evaluation.
  split; [exact H |].
  destruct (plot_validation_shapes
              (fun _ => [[[3]; [5]]]) [[[1]; [2]; [3]]] [[[3]; [4]]] 0
              eq_refl eq_refl H)
    as (row & window & target & Hr & Hw & Ht & _).
  now exists row, window, target.
Defined.

Lemma plot_after_split_witness :
  train_val_split [[1]; [2]; [3]; [4]; [5]; [6]; [7]; [8]] 2 2 2
  = (["Created 2 training samples, and 2 validation samples."],
     Ret ([[[1]; [2]]; [[2]; [3]]], [[[2]; [3]]; [[3]; [4]]],
          [[[5]; [6]]; [[6]; [7]]], [[[6]; [7]]; [[7]; [8]]]))
  /\ exists row window target,
       index [[[5]; [6]]; [[6]; [7]]] 1 = ret window
       /\ index [[[6]; [7]]; [[7]; [8]]] 1 = ret target
       /\ plot_validation (map (fun _ => [[0]; [0]]))
                          [[[5]; [6]]; [[6]; [7]]] [[[6]; [7]]; [[7]; [8]]] 1
          = ([], Ret [("predicted", Frame (arange (2 - 1) (2 - 1 + 2)) (flatten row));
                      ("input", Frame (arange 0 2) (flatten window));
                      ("expected",
                       Frame (arange (2 - 1) (2 - 1 + 2)) (flatten target))]).
Proof.
  split; [reflexivity |].
  destruct (plot_after_split
              (map (fun _ => [[0]; [0]]))
              [[1]; [2]; [3]; [4]; [5]; [6]; [7]; [8]] 2 2 2
              ["Created 2 training samples, and 2 validation samples."]
              [[[1]; [2]]; [[2]; [3]]] [[[2]; [3]]; [[3]; [4]]]
              [[[5]; [6]]; [[6]; [7]]] [[[6]; [7]]; [[7]; [8]]] 1)
    as (row & window & target & _ & Hw & Ht & Hplot & _).
  - lia.
  - lia.
  - repeat constructor.
  - reflexivity.
  - reflexivity.
  - intros row [<-|[<-|[]]]; reflexivity.
  - by_evaluation.
  - now exists row, window, target.
Defined.

(** ** Input and output of one sample, and the data each set uses *)

Section SampleSpan.

Context {A : Type}.
Implicit Types s data : list A.

(** X14: input [k] followed by output [k] without its first element is
    the run of [n_in + n_out - 1] consecutive elements of the sequence
    from position [k] on: an output brings [n_out - 1] values that the
    input does not hold. *)
Theorem split_sequence_sample_span s n_in n_out out inputs outputs :
  1 <= n_in -> 1 <= n_out ->
  _split_sequence s n_in n_out = (out, Ret (inputs, outputs)) ->
  forall (k : nat) x y,
    nth_error inputs k = Some x -> nth_error outputs k = Some y ->
    x ++ skipn 1 y = window s k (Z.to_nat (n_in + n_out - 1))
    /\ len (x ++ skipn 1 y) = n_in + n_out - 1.
Proof.
  intros Hi Ho Hrun k x y Hx Hy.
  apply split_sequence_Ret_inv in Hrun as (Hlen & _ & -> & ->);
    [| assumption | assumption].
  apply nth_error_windows_in in Hx as [Hk ->].
  apply nth_error_windows_out in Hy as [_ ->].
  apply window_count_spec in Hk. unfold len in *.
  assert (Hspan : window s k (Z.to_nat n_in)
                  ++ skipn 1 (window s (k + Z.to_nat n_in - 1) (Z.to_nat n_out))
                  = window s k (Z.to_nat (n_in + n_out - 1))).
  { rewrite window_tail.
    replace (Z.to_nat (n_in + n_out - 1))
      with (Z.to_nat n_in + (Z.to_nat n_out - 1))%nat by lia.
    unfold window. rewrite firstn_plus, skipn_skipn.
    do 3 f_equal. lia. }
  split; [exact Hspan |].
  rewrite Hspan. unfold window. rewrite length_window; lia.
Qed.

(** X15: whenever [train_val_split] returns, the training windows and the
    validation windows together hold every point of the series once and
    in order: rebuilding each partition from its windows (first elements
    of the inputs, rest of the last input, rest of the last output) and
    joining the two gives the series back. *)
Theorem train_val_split_uses_all_data data n_in n_out val_samples out
    x_train y_train x_valid y_valid :
  1 <= n_in -> 1 <= n_out ->
  train_val_split data n_in n_out val_samples
  = (out, Ret (x_train, y_train, x_valid, y_valid)) ->
  data
  = (flat_map (firstn 1) x_train
     ++ skipn 1 (last x_train []) ++ skipn 1 (last y_train []))
    ++ (flat_map (firstn 1) x_valid
        ++ skipn 1 (last x_valid []) ++ skipn 1 (last y_valid [])).
Proof.
  intros Hi Ho Hrun.
  destruct (train_val_split_outcome data n_in n_out val_samples Hi Ho)
    as [[_ Hexit]|(Ht & Hv & Hret)]; [rewrite Hexit in Hrun; discriminate |].
  rewrite Hret in Hrun. clear Hret.
  assert (Hjoin : fst (partitions data n_in n_out val_samples)
                  ++ snd (partitions data n_in n_out val_samples) = data)
    by (rewrite partitions_cut; apply firstn_skipn).
  remember (fst (partitions data n_in n_out val_samples)) as train eqn:Etrain.
  remember (snd (partitions data n_in n_out val_samples)) as valid eqn:Evalid.
  injection Hrun as _ <- <- <- <-.
  rewrite <- (windows_rebuild train n_in n_out) by assumption.
  rewrite <- (windows_rebuild valid n_in n_out) by assumption.
  symmetry. exact Hjoin.
Qed.

End SampleSpan.

Lemma split_sequence_sample_span_witness :
  1 <= 3 /\ 1 <= 2
  /\ _split_sequence [1; 2; 3; 4; 5] 3 2
     = ([], Ret ([[1; 2; 3]; [2; 3; 4]], [[3; 4]; [4; 5]]))
  /\ [2; 3; 4] ++ skipn 1 [4; 5] = window [1; 2; 3; 4; 5] 1 (Z.to_nat (3 + 2 - 1)).
Proof.
  split; [lia |]. split; [lia |]. split; [reflexivity |].
  apply (split_sequence_sample_span [1; 2; 3; 4; 5] 3 2 []
           [[1; 2; 3]; [2; 3; 4]] [[3; 4]; [4; 5]]
           ltac:(lia) ltac:(lia) eq_refl 1%nat [2; 3; 4] [4; 5]
           eq_refl eq_refl).
Defined.

Lemma train_val_split_uses_all_data_witness :
  1 <= 2 /\ 1 <= 2
  /\ train_val_split [1; 2; 3; 4; 5; 6; 7; 8] 2 2 2
     = (["Created 2 training samples, and 2 validation samples."],
        Ret ([[1; 2]; [2; 3]], [[2; 3]; [3; 4]],
             [[5; 6]; [6; 7]], [[6; 7]; [7; 8]]))
  /\ [1; 2; 3; 4; 5; 6; 7; 8]
     = (flat_map (firstn 1) [[1; 2]; [2; 3]]
        ++ skipn 1 (last [[1; 2]; [2; 3]] [])
        ++ skipn 1 (last [[2; 3]; [3; 4]] []))
       ++ (flat_map (firstn 1) [[5; 6]; [6; 7]]
           ++ skipn 1 (last [[5; 6]; [6; 7]] [])
           ++ skipn 1 (last [[6; 7]; [7; 8]] [])).
Proof.
  split; [lia |]. split; [lia |]. split; [reflexivity |].
  apply (train_val_split_uses_all_data [1; 2; 3; 4; 5; 6; 7; 8] 2 2 2
           ["Created 2 training samples, and 2 validation samples."]
           [[1; 2]; [2; 3]] [[2; 3]; [3; 4]]
           [[5; 6]; [6; 7]] [[6; 7]; [7; 8]]);
    [lia | lia | reflexivity].
Defined.
